(** * Simulatore di produzione "Zio Peppe": a shallow embedding

    This development embeds [project_work_settore_primario.py] (class
    [SimulatoreProduzioneZioPeppe]) and settles the properties stated for
    its estimator ([calcola_tempo_produzione]), its sequence aggregator
    ([simula_sequenza_produttiva]), its facility report
    ([rapporto_produzione_completo]), its configuration setters, the
    drawing of the quantities ([genera_quantita_casuali]) and [main].

    The methods are embedded twice.
    - First on exact numbers: a value that is an [int] or a [float] in
      the source (quantities, rates, capacities, hours) is a rational
      [Q], and a value the source always produces as an [int] (day
      counts) is a [Z].  This reading serves the properties that do
      not depend on the rounding of [float] operations: outcomes and
      exceptions, frame conditions, the structure of the reports,
      orderings and bounds of the two-decimal values.
    - Then, in module [B64], on Python's numbers as they are, an [int]
      or a binary64 [float] whose operations round.  This reading
      serves the properties that depend on the rounding: the day
      count against the ceiling, the total and the averages of the
      reports, the values estimated after a setter.

    Conventions of the embedding.
    - [dict]s that are only looked up and updated by key ([prodotti],
      [quantita_produzione]) are [gmap string _]; [sequenze], whose keys
      are iterated in insertion order, is an association list.
    - A method is a function from the simulator state to an outcome
      (returned value or raised exception) and the state it leaves.
    - Console output ([print]) is left out; the time stamp of a report
      and the values drawn by [random.randint] are supplied from
      outside. *)

From Stdlib Require Import QArith Qround Qabs Qpower Lqa.
From stdpp Require Import gmap strings list.

Local Open Scope Q_scope.

(** ** Python arithmetic on exact numbers *)

Module Py.

(** Exceptions the modelled methods can raise. *)
Inductive exn : Type :=
| KeyError (k : string)
| ZeroDivisionError
| ValueError.

Inductive outcome (A : Type) : Type :=
| Ret (a : A)
| Raise (e : exn).
Arguments Ret {A} a.
Arguments Raise {A} e.

(** [x / y]: true division, [ZeroDivisionError] on a zero divisor. *)
Definition truediv (x y : Q) : outcome Q :=
  if Qeq_bool y 0 then Raise ZeroDivisionError else Ret (x / y).

(** [x % y]: the remainder takes the sign of the divisor. *)
Definition mod_ (x y : Q) : outcome Q :=
  if Qeq_bool y 0 then Raise ZeroDivisionError
  else Ret (x - y * inject_Z (Qfloor (x / y))).

(** [int(x)]: truncation toward zero. *)
Definition int (x : Q) : Z := Z.quot (Qnum x) (Zpos (Qden x)).

(** [round(x)] to the nearest integer, ties to the even one. *)
Definition round_half_even (x : Q) : Z :=
  let f := Qfloor x in
  match Qcompare (x - inject_Z f) (1 # 2) with
  | Lt => f
  | Gt => (f + 1)%Z
  | Eq => if Z.even f then f else (f + 1)%Z
  end.

(** [round(x, 2)]. *)
Definition round2 (x : Q) : Q := Qmake (round_half_even (x * 100)) 100.

(** [x > y] on numbers. *)
Definition gt (x y : Q) : bool :=
  match Qcompare x y with Gt => true | _ => false end.

End Py.

Import Py.

(** ** Data model *)

(** An entry of [self.prodotti]. *)
Record Prodotto : Type := {
  nome : string;
  tempo_per_kg : Q;
  capacita_giornaliera : Q;
  unita_misura : string
}.

(** The dictionary returned by [calcola_tempo_produzione]. *)
Module Stima.
Record t : Type := {
  prodotto : string;
  quantita : Q;
  tempo_lavorazione_ore : Q;
  tempo_lavorazione_giorni : Q;
  giorni_effettivi : Z;
  tempo_totale_ore : Z
}.
End Stima.

(** The dictionary returned by [simula_sequenza_produttiva]. *)
Module Sequenza.
Record t : Type := {
  sequenza : string;
  dettagli_prodotti : list Stima.t;
  tempo_totale_ore : Q;
  giorni_totali : Z;
  ore_medie_giorno : Q
}.
End Sequenza.

(** [rapporto['totali_generali']]. *)
Module Totali.
Record t : Type := {
  tempo_totale_ore : Q;
  giorni_totali : Z;
  ore_medie_giorno : Q;
  quantita_totale_kg : Q
}.
End Totali.

(** The dictionary returned by [rapporto_produzione_completo]. *)
Module Rapporto.
Record t : Type := {
  data_simulazione : string;
  quantita_produzione : gmap string Q;
  sequenze : list (string * option Sequenza.t);
  totali_generali : Totali.t
}.
End Rapporto.

(** The attributes of a [SimulatoreProduzioneZioPeppe] instance.
    [capacita_complessiva] exists only once
    [configura_capacita_complessiva] has been called. *)
Record Simulatore : Type := {
  prodotti : gmap string Prodotto;
  sequenze : list (string * list string);
  quantita_produzione : gmap string Q;
  capacita_complessiva : option Q
}.

(** ** Methods: state and exceptions *)

Definition M (A : Type) : Type := Simulatore -> outcome A * Simulatore.

#[global] Instance M_ret : MRet M := fun A (a : A) self => (Ret a, self).

#[global] Instance M_bind : MBind M := fun A B (f : A -> M B) (m : M A) self =>
  match m self with
  | (Ret a, self') => f a self'
  | (Raise e, self') => (Raise e, self')
  end.

(** Read the instance. *)
Definition get : M Simulatore := fun self => (Ret self, self).

(** Replace the instance's attributes. *)
Definition put (self' : Simulatore) : M unit := fun _ => (Ret tt, self').

(** An operation that may raise, run inside a method. *)
Definition lift {A : Type} (o : outcome A) : M A := fun self => (o, self).

(** [d[k]] on a dictionary: [KeyError] when the key is absent. *)
Definition getitem {V : Type} (d : gmap string V) (k : string) : M V :=
  match d !! k with
  | Some v => mret v
  | None => lift (Raise (KeyError k))
  end.

(** Lookup in an insertion-ordered dictionary. *)
Fixpoint assoc {V : Type} (k : string) (d : list (string * V)) : option V :=
  match d with
  | [] => None
  | (k', v) :: d' => if decide (k = k') then Some v else assoc k d'
  end.

(** ** [__init__] *)

Definition prodotti_iniziali : gmap string Prodotto :=
  <["carne_bovina" :=
      {| nome := "Carne Bovina"; tempo_per_kg := 0.15;
         capacita_giornaliera := 500; unita_misura := "kg" |}]>
  (<["carne_suina" :=
      {| nome := "Carne Suina"; tempo_per_kg := 0.12;
         capacita_giornaliera := 400; unita_misura := "kg" |}]>
  (<["salumi" :=
      {| nome := "Salumi"; tempo_per_kg := 0.25;
         capacita_giornaliera := 200; unita_misura := "kg" |}]>
  (<["formaggi" :=
      {| nome := "Formaggi"; tempo_per_kg := 0.20;
         capacita_giornaliera := 150; unita_misura := "kg" |}]> ∅))).

Definition sequenze_iniziali : list (string * list string) :=
  [ ("sequenza_macellazione"%string, ["carne_bovina"; "carne_suina"]%string);
    ("sequenza_trasformazione"%string, ["salumi"; "formaggi"]%string) ].

Definition init : Simulatore :=
  {| prodotti := prodotti_iniziali;
     sequenze := sequenze_iniziali;
     quantita_produzione := ∅;
     capacita_complessiva := None |}.

(** ** Configuration setters *)

Definition con_tempo_per_kg (p : Prodotto) (t : Q) : Prodotto :=
  {| nome := nome p; tempo_per_kg := t;
     capacita_giornaliera := capacita_giornaliera p;
     unita_misura := unita_misura p |}.

Definition con_capacita_giornaliera (p : Prodotto) (c : Q) : Prodotto :=
  {| nome := nome p; tempo_per_kg := tempo_per_kg p;
     capacita_giornaliera := c;
     unita_misura := unita_misura p |}.

Definition con_prodotti (self : Simulatore) (d : gmap string Prodotto) : Simulatore :=
  {| prodotti := d; sequenze := sequenze self;
     quantita_produzione := quantita_produzione self;
     capacita_complessiva := capacita_complessiva self |}.

(** [if prodotto in self.prodotti: self.prodotti[prodotto]['tempo_per_kg'] = ...];
    an unknown key only prints a message. *)
Definition configura_tempo_produzione (prodotto : string) (tempo_per_unita : Q) : M unit :=
  self ← get;
  match prodotti self !! prodotto with
  | Some info =>
      put (con_prodotti self (<[prodotto := con_tempo_per_kg info tempo_per_unita]> (prodotti self)))
  | None => mret tt
  end.

Definition configura_capacita_giornaliera (prodotto : string) (capacita : Q) : M unit :=
  self ← get;
  match prodotti self !! prodotto with
  | Some info =>
      put (con_prodotti self (<[prodotto := con_capacita_giornaliera info capacita]> (prodotti self)))
  | None => mret tt
  end.

Definition configura_capacita_complessiva (capacita_totale : Q) : M unit :=
  self ← get;
  put {| prodotti := prodotti self; sequenze := sequenze self;
         quantita_produzione := quantita_produzione self;
         capacita_complessiva := Some capacita_totale |}.

(** ** The estimator *)

Definition calcola_tempo_produzione (prodotto : string) (quantita : Q) : M Stima.t :=
  self ← get;
  info_prodotto ← getitem (prodotti self) prodotto;
  let tempo_per_unita := tempo_per_kg info_prodotto in
  let capacita := capacita_giornaliera info_prodotto in
  giorni_necessari ← lift (truediv quantita capacita);
  let tempo_lavorazione := quantita * tempo_per_unita in
  giorni_effettivi ←
    (if gt quantita capacita then
       d ← lift (truediv quantita capacita);
       r ← lift (mod_ quantita capacita);
       mret (Py.int d + (if gt r 0 then 1 else 0))%Z
     else mret 1%Z);
  mret {| Stima.prodotto := nome info_prodotto;
          Stima.quantita := quantita;
          Stima.tempo_lavorazione_ore := round2 tempo_lavorazione;
          Stima.tempo_lavorazione_giorni := round2 giorni_necessari;
          Stima.giorni_effettivi := giorni_effettivi;
          Stima.tempo_totale_ore := (giorni_effettivi * 8)%Z |}.

(** ** The sequence aggregator *)

(** The loop variables [risultati], [tempo_totale_ore], [tempo_totale_giorni]. *)
Definition Acc : Type := (list Stima.t * Q * Z)%type.

(** The [for prodotto in self.sequenze[nome_sequenza]] loop. *)
Fixpoint ciclo_prodotti (membri : list string) (acc : Acc) : M Acc :=
  match membri with
  | [] => mret acc
  | prodotto :: resto =>
      self ← get;
      match quantita_produzione self !! prodotto with
      | None => ciclo_prodotti resto acc
      | Some quantita =>
          let '(risultati, tempo_totale_ore, tempo_totale_giorni) := acc in
          risultato ← calcola_tempo_produzione prodotto quantita;
          ciclo_prodotti resto
            (risultati ++ [risultato],
             tempo_totale_ore + Stima.tempo_lavorazione_ore risultato,
             Z.max tempo_totale_giorni (Stima.giorni_effettivi risultato))
      end
  end.

(** [total / max(days, 1)], as computed for both the sequence and the
    facility averages. *)
Definition ore_medie (tempo_totale_ore : Q) (giorni : Z) : outcome Q :=
  truediv tempo_totale_ore (inject_Z (Z.max giorni 1)).

Definition simula_sequenza_produttiva (nome_sequenza : string) : M (option Sequenza.t) :=
  self ← get;
  match assoc nome_sequenza (sequenze self) with
  | None => mret None
  | Some membri =>
      '(risultati, tempo_totale_ore, tempo_totale_giorni) ← ciclo_prodotti membri ([], 0, 0%Z);
      media ← lift (ore_medie tempo_totale_ore tempo_totale_giorni);
      mret (Some {| Sequenza.sequenza := nome_sequenza;
                    Sequenza.dettagli_prodotti := risultati;
                    Sequenza.tempo_totale_ore := round2 tempo_totale_ore;
                    Sequenza.giorni_totali := tempo_totale_giorni;
                    Sequenza.ore_medie_giorno := round2 media |})
  end.

(** ** The facility report *)

(** The [for nome_sequenza in self.sequenze.keys()] loop filling
    [rapporto['sequenze']]. *)
Fixpoint ciclo_sequenze (nomi : list string) : M (list (string * option Sequenza.t)) :=
  match nomi with
  | [] => mret []
  | nome_sequenza :: resto =>
      risultato_sequenza ← simula_sequenza_produttiva nome_sequenza;
      altri ← ciclo_sequenze resto;
      mret ((nome_sequenza, risultato_sequenza) :: altri)
  end.

(** The reports that are not [None]. *)
Definition non_assenti (l : list (string * option Sequenza.t)) : list Sequenza.t :=
  omap snd l.

(** [sum(...)] over numbers. *)
Definition somma (l : list Q) : Q := foldl Qplus 0 l.

(** [max(...)] over a generator of integers: [ValueError] when it is empty. *)
Definition massimo (l : list Z) : outcome Z :=
  match l with
  | [] => Raise ValueError
  | x :: l' => Ret (foldl Z.max x l')
  end.

Definition rapporto_produzione_completo (adesso : string) : M Rapporto.t :=
  self ← get;
  seqs ← ciclo_sequenze (fst <$> sequenze self);
  let tempo_totale_generale := somma (Sequenza.tempo_totale_ore <$> non_assenti seqs) in
  giorni_totali_generale ← lift (massimo (Sequenza.giorni_totali <$> non_assenti seqs));
  media ← lift (ore_medie tempo_totale_generale giorni_totali_generale);
  let quantita_totale := map_fold (fun _ q tot => tot + q) 0 (quantita_produzione self) in
  mret {| Rapporto.data_simulazione := adesso;
          Rapporto.quantita_produzione := quantita_produzione self;
          Rapporto.sequenze := seqs;
          Rapporto.totali_generali :=
            {| Totali.tempo_totale_ore := round2 tempo_totale_generale;
               Totali.giorni_totali := giorni_totali_generale;
               Totali.ore_medie_giorno := round2 media;
               Totali.quantita_totale_kg := quantita_totale |} |}.

(** ** Functional reading of the methods

    The definitions below restate what the methods compute once the
    state and the exceptions are threaded; the lemmas [calcola_eq],
    [ciclo_eq] and [simula_eq] prove the methods equal to them. *)

(** The day count [giorni_effettivi] of the estimator. *)
Definition giorni_di (quantita capacita : Q) : Z :=
  if gt quantita capacita then
    (Py.int (quantita / capacita) +
     (if gt (quantita - capacita * inject_Z (Qfloor (quantita / capacita))) 0
      then 1 else 0))%Z
  else 1%Z.

(** The estimate for a catalog entry of non-zero capacity. *)
Definition stima_di (info : Prodotto) (quantita : Q) : Stima.t :=
  {| Stima.prodotto := nome info;
     Stima.quantita := quantita;
     Stima.tempo_lavorazione_ore := round2 (quantita * tempo_per_kg info);
     Stima.tempo_lavorazione_giorni := round2 (quantita / capacita_giornaliera info);
     Stima.giorni_effettivi := giorni_di quantita (capacita_giornaliera info);
     Stima.tempo_totale_ore := (giorni_di quantita (capacita_giornaliera info) * 8)%Z |}.

(** The outcome of one call of the estimator. *)
Definition esito_stima (self : Simulatore) (prodotto : string) (quantita : Q) : outcome Stima.t :=
  match prodotti self !! prodotto with
  | None => Raise (KeyError prodotto)
  | Some info =>
      if Qeq_bool (capacita_giornaliera info) 0 then Raise ZeroDivisionError
      else Ret (stima_di info quantita)
  end.

(** The outcomes of the estimator on the members of a sequence that have
    a quantity, in sequence order. *)
Definition stime_di (self : Simulatore) (membri : list string) : list (outcome Stima.t) :=
  omap (fun p => (fun q => fst (calcola_tempo_produzione p q self))
                   <$> quantita_produzione self !! p) membri.

(** The members of a sequence that have a quantity. *)
Definition risolti (self : Simulatore) (membri : list string) : list string :=
  filter (fun p => is_Some (quantita_produzione self !! p)) membri.

(** All the values, or the first exception. *)
Fixpoint tutti {A : Type} (l : list (outcome A)) : outcome (list A) :=
  match l with
  | [] => Ret []
  | Raise e :: _ => Raise e
  | Ret a :: l' =>
      match tutti l' with
      | Ret r => Ret (a :: r)
      | Raise e => Raise e
      end
  end.

(** The totals accumulated over a list of estimates. *)
Definition ore_di (ore : Q) (stime : list Stima.t) : Q :=
  foldl (fun tot r => tot + Stima.tempo_lavorazione_ore r) ore stime.

Definition giorni_max (giorni : Z) (stime : list Stima.t) : Z :=
  foldl (fun g r => Z.max g (Stima.giorni_effettivi r)) giorni stime.

(** The report built from the estimates of the resolved members. *)
Definition rapporto_di (nome_sequenza : string) (stime : list Stima.t) : Sequenza.t :=
  {| Sequenza.sequenza := nome_sequenza;
     Sequenza.dettagli_prodotti := stime;
     Sequenza.tempo_totale_ore := round2 (ore_di 0 stime);
     Sequenza.giorni_totali := giorni_max 0 stime;
     Sequenza.ore_medie_giorno :=
       round2 (ore_di 0 stime / inject_Z (Z.max (giorni_max 0 stime) 1)) |}.

(** Replace the quantity table. *)
Definition con_quantita (self : Simulatore) (d : gmap string Q) : Simulatore :=
  {| prodotti := prodotti self; sequenze := sequenze self;
     quantita_produzione := d;
     capacita_complessiva := capacita_complessiva self |}.

(** Replace the sequences table. *)
Definition con_sequenze (self : Simulatore) (d : list (string * list string)) : Simulatore :=
  {| prodotti := prodotti self; sequenze := d;
     quantita_produzione := quantita_produzione self;
     capacita_complessiva := capacita_complessiva self |}.

(** ** Notions used in the statements *)

(** A member whose estimate succeeds: it has no quantity (and is
    skipped), or its catalog entry has a positive capacity. *)
Definition stimabile (self : Simulatore) (p : string) : bool :=
  match quantita_produzione self !! p with
  | None => true
  | Some _ =>
      match prodotti self !! p with
      | Some info => gt (capacita_giornaliera info) 0
      | None => false
      end
  end.


(** The largest of a list of day counts, 0 for the empty list. *)
Definition massimo_giorni (l : list Z) : Z := foldl Z.max 0%Z l.

(** The sum of a list of day counts. *)
Definition somma_giorni (l : list Z) : Z := foldl Z.add 0%Z l.

(** The instance once the quantity of [k] is supplied. *)
Definition fornisci_quantita (self : Simulatore) (k : string) (qk : Q) : Simulatore :=
  con_quantita self (<[k := qk]> (quantita_produzione self)).

(** ** States used as examples *)

(** A request for the transformation line only. *)
Definition stato_trasformazione : Simulatore :=
  con_quantita init (<["salumi" := 401]> (<["formaggi" := 120]> ∅)).

(** A request for the slaughter line, with ["carne_bovina"] removed from
    the catalog. *)
Definition stato_senza_bovina : Simulatore :=
  con_quantita (con_prodotti init (delete "carne_bovina" prodotti_iniziali))
    (<["carne_bovina" := 100]> (<["carne_suina" := 100]> ∅)).

(** A request for the slaughter line. *)
Definition stato_macellazione : Simulatore :=
  con_quantita init (<["carne_bovina" := 100]> (<["carne_suina" := 100]> ∅)).

(** ** [genera_quantita_casuali] and [main]

    The pseudo-random generator is outside the embedding: the value
    that [random.randint] draws for a product is supplied by [estrai].
    Each product of the catalog is visited once, so the order in which
    [self.prodotti.items()] is walked does not show in the result. *)

(** [random.randint(a, b)] drawing [estratto]: [ValueError] on an empty
    range. *)
Definition randint (estratto a b : Z) : outcome Z :=
  if (b <? a)%Z then Raise ValueError else Ret estratto.

(** The [for codice_prodotto, info in self.prodotti.items()] loop. *)
Fixpoint ciclo_genera (estrai : string -> Z) (min_qty max_qty : Z)
    (codici : list string) : M unit :=
  match codici with
  | [] => mret tt
  | codice_prodotto :: resto =>
      quantita ← lift (randint (estrai codice_prodotto) min_qty max_qty);
      self ← get;
      put (con_quantita self
             (<[codice_prodotto := inject_Z quantita]> (quantita_produzione self)));;
      ciclo_genera estrai min_qty max_qty resto
  end.

Definition genera_quantita_casuali (estrai : string -> Z) (min_qty max_qty : Z) :
    M (gmap string Q) :=
  self ← get;
  ciclo_genera estrai min_qty max_qty (fst <$> map_to_list (prodotti self));;
  self' ← get;
  mret (quantita_produzione self').

(** [main()], run on a new instance; it returns [None].  Its closing
    loop over the sequences of the report only computes the figures it
    prints. *)
Definition main (estrai : string -> Z) (adesso : string) : outcome unit * Simulatore :=
  (genera_quantita_casuali estrai 80 250;;
   configura_tempo_produzione "carne_bovina" 0.18;;
   configura_capacita_giornaliera "salumi" 220;;
   rapporto ← rapporto_produzione_completo adesso;
   mret tt) init.

(** ** Notions used in the further statements *)

(** A catalog entry of non-zero capacity exists for the product. *)
Definition in_catalogo (self : Simulatore) (p : string) : bool :=
  match prodotti self !! p with
  | Some info => negb (Qeq_bool (capacita_giornaliera info) 0)
  | None => false
  end.

(** A member whose estimate returns: it has no quantity, or it is in
    the catalog with a non-zero capacity. *)
Definition riesce (self : Simulatore) (p : string) : bool :=
  match quantita_produzione self !! p with
  | None => true
  | Some _ => in_catalogo self p
  end.

(** Replace the overall capacity. *)
Definition con_capacita_complessiva (self : Simulatore) (c : option Q) : Simulatore :=
  {| prodotti := prodotti self; sequenze := sequenze self;
     quantita_produzione := quantita_produzione self;
     capacita_complessiva := c |}.

(** The facility report built from what the sequences returned and from
    the largest day count. *)
Definition rapporto_completo_di (self : Simulatore) (adesso : string)
    (seqs : list (string * option Sequenza.t)) (giorni : Z) : Rapporto.t :=
  let ore := somma (Sequenza.tempo_totale_ore <$> non_assenti seqs) in
  {| Rapporto.data_simulazione := adesso;
     Rapporto.quantita_produzione := quantita_produzione self;
     Rapporto.sequenze := seqs;
     Rapporto.totali_generali :=
       {| Totali.tempo_totale_ore := round2 ore;
          Totali.giorni_totali := giorni;
          Totali.ore_medie_giorno := round2 (ore / inject_Z (Z.max giorni 1));
          Totali.quantita_totale_kg :=
            map_fold (fun _ q tot => tot + q) 0 (quantita_produzione self) |} |}.

(** The outcomes of [simula_sequenza_produttiva] on a list of names. *)
Definition esiti_sequenze (self : Simulatore) (nomi : list string) :
    list (outcome (option Sequenza.t)) :=
  (fun n => fst (simula_sequenza_produttiva n self)) <$> nomi.

(** The quantity table once each product of [codici] has received its
    draw. *)
Definition quantita_estratte (estrai : string -> Z) (codici : list string)
    (d : gmap string Q) : gmap string Q :=
  foldl (fun m k => <[k := inject_Z (estrai k)]> m) d codici.

(** A sequence name whose report is returned. *)
Definition sequenza_riesce (self : Simulatore) (n : string) : bool :=
  match assoc n (sequenze self) with
  | Some membri => forallb (riesce self) membri
  | None => true
  end.
(** ** The methods on binary64

    The definitions above read every number exactly.  This module
    embeds the estimator, the aggregator, the facility report and the
    setters on Python's numbers as they are: an [int] is an integer, a
    [float] is the rational value of a double, and every operation
    that yields a [float] rounds its exact result to the nearest
    double, ties to even.  Results beyond the largest double (where
    Python has [inf] or [OverflowError]), [nan] and the sign of zero
    are outside the embedding.  [quantita_produzione], whose values
    [sum()] adds in insertion order, is an association list here. *)

Module B64.

(** [2 ** e]. *)
Definition pow2 (e : Z) : Q := Qpower 2 e.

(** The integer part of the base-2 logarithm of a positive number. *)
Definition ilog2 (x : Q) : Z :=
  let k := (Z.log2 (Qnum x) - Z.log2 (Zpos (Qden x)))%Z in
  if Qle_bool (pow2 k) x then k else (k - 1)%Z.

(** The exponent of the last binary place of the doubles around [x]:
    53 significant bits, and [2 ** -1074] for the subnormal ones. *)
Definition esponente (x : Q) : Z := Z.max (ilog2 (Qabs x) - 52) (-1074).

(** The double nearest to [x], ties to the even significand. *)
Definition fl (x : Q) : Q :=
  if Qeq_bool x 0 then 0
  else Qred (inject_Z (round_half_even (x / pow2 (esponente x)))
             * pow2 (esponente x)).

(** A Python number. *)
Inductive num : Type :=
| Int (z : Z)
| Float (x : Q).

(** The exact value of a number. *)
Definition valore (a : num) : Q :=
  match a with Int z => inject_Z z | Float x => x end.

(** [float(a)]. *)
Definition come_float (a : num) : Q :=
  match a with Int z => fl (inject_Z z) | Float x => x end.

(** A decimal literal of the source, such as [0.15]. *)
Definition lit (x : Q) : num := Float (fl x).

(** [a == 0]. *)
Definition nullo (a : num) : bool := Qeq_bool (valore a) 0.

(** [a / b]: the quotient of two [int]s is rounded once; otherwise both
    operands are first taken as [float]s. *)
Definition truediv (a b : num) : outcome num :=
  if nullo b then Raise ZeroDivisionError
  else match a, b with
       | Int x, Int y => Ret (Float (fl (inject_Z x / inject_Z y)))
       | _, _ => Ret (Float (fl (come_float a / come_float b)))
       end.

(** [a * b]. *)
Definition mul (a b : num) : num :=
  match a, b with
  | Int x, Int y => Int (x * y)
  | _, _ => Float (fl (come_float a * come_float b))
  end.

(** [a + b]. *)
Definition add (a b : num) : num :=
  match a, b with
  | Int x, Int y => Int (x + y)
  | _, _ => Float (fl (come_float a + come_float b))
  end.

(** [a > b]: numbers are compared by their exact values. *)
Definition gt (a b : num) : bool := Py.gt (valore a) (valore b).

(** [a % b]: on [int]s the remainder of the floor division; on
    [float]s the exact [fmod], to which the divisor is added when
    their signs differ. *)
Definition mod_ (a b : num) : outcome num :=
  if nullo b then Raise ZeroDivisionError
  else match a, b with
       | Int x, Int y => Ret (Int (x mod y))
       | _, _ =>
           let x := come_float a in
           let y := come_float b in
           let m := x - y * inject_Z (Py.int (x / y)) in
           Ret (Float (if Qeq_bool m 0 then 0
                       else if xorb (Py.gt 0 y) (Py.gt 0 m) then fl (m + y)
                       else Qred m))
       end.

(** [int(a)]. *)
Definition int (a : num) : Z :=
  match a with Int z => z | Float x => Py.int x end.

(** [round(a, 2)]: an [int] is returned as it is; a [float] is rounded
    to two decimals on its exact value, and the result is the double
    nearest to that decimal. *)
Definition round2 (a : num) : num :=
  match a with Int z => Int z | Float x => Float (fl (Py.round2 x)) end.

Record Prodotto : Type := {
  nome : string;
  tempo_per_kg : num;
  capacita_giornaliera : num;
  unita_misura : string
}.

Module Stima.
Record t : Type := {
  prodotto : string;
  quantita : num;
  tempo_lavorazione_ore : num;
  tempo_lavorazione_giorni : num;
  giorni_effettivi : Z;
  tempo_totale_ore : Z
}.
End Stima.

Module Sequenza.
Record t : Type := {
  sequenza : string;
  dettagli_prodotti : list Stima.t;
  tempo_totale_ore : num;
  giorni_totali : Z;
  ore_medie_giorno : num
}.
End Sequenza.

Module Totali.
Record t : Type := {
  tempo_totale_ore : num;
  giorni_totali : Z;
  ore_medie_giorno : num;
  quantita_totale_kg : num
}.
End Totali.

Module Rapporto.
Record t : Type := {
  data_simulazione : string;
  quantita_produzione : list (string * num);
  sequenze : list (string * option Sequenza.t);
  totali_generali : Totali.t
}.
End Rapporto.

Record Simulatore : Type := {
  prodotti : gmap string Prodotto;
  sequenze : list (string * list string);
  quantita_produzione : list (string * num);
  capacita_complessiva : option num
}.

Definition M (A : Type) : Type := Simulatore -> outcome A * Simulatore.

#[global] Instance M_ret : MRet M := fun A (a : A) self => (Ret a, self).

#[global] Instance M_bind : MBind M := fun A B (f : A -> M B) (m : M A) self =>
  match m self with
  | (Ret a, self') => f a self'
  | (Raise e, self') => (Raise e, self')
  end.

Definition get : M Simulatore := fun self => (Ret self, self).

Definition put (self' : Simulatore) : M unit := fun _ => (Ret tt, self').

Definition lift {A : Type} (o : outcome A) : M A := fun self => (o, self).

Definition getitem {V : Type} (d : gmap string V) (k : string) : M V :=
  match d !! k with
  | Some v => mret v
  | None => lift (Raise (KeyError k))
  end.

(** The setters, the estimator, the aggregator and the facility report
    are those of the first reading, on [num]. *)

Definition con_tempo_per_kg (p : Prodotto) (t : num) : Prodotto :=
  {| nome := nome p; tempo_per_kg := t;
     capacita_giornaliera := capacita_giornaliera p;
     unita_misura := unita_misura p |}.

Definition con_capacita_giornaliera (p : Prodotto) (c : num) : Prodotto :=
  {| nome := nome p; tempo_per_kg := tempo_per_kg p;
     capacita_giornaliera := c;
     unita_misura := unita_misura p |}.

Definition con_prodotti (self : Simulatore) (d : gmap string Prodotto) : Simulatore :=
  {| prodotti := d; sequenze := sequenze self;
     quantita_produzione := quantita_produzione self;
     capacita_complessiva := capacita_complessiva self |}.

Definition configura_tempo_produzione (prodotto : string) (tempo_per_unita : num) : M unit :=
  self ← get;
  match prodotti self !! prodotto with
  | Some info =>
      put (con_prodotti self (<[prodotto := con_tempo_per_kg info tempo_per_unita]> (prodotti self)))
  | None => mret tt
  end.

Definition configura_capacita_giornaliera (prodotto : string) (capacita : num) : M unit :=
  self ← get;
  match prodotti self !! prodotto with
  | Some info =>
      put (con_prodotti self (<[prodotto := con_capacita_giornaliera info capacita]> (prodotti self)))
  | None => mret tt
  end.

Definition configura_capacita_complessiva (capacita_totale : num) : M unit :=
  self ← get;
  put {| prodotti := prodotti self; sequenze := sequenze self;
         quantita_produzione := quantita_produzione self;
         capacita_complessiva := Some capacita_totale |}.

Definition calcola_tempo_produzione (prodotto : string) (quantita : num) : M Stima.t :=
  self ← get;
  info_prodotto ← getitem (prodotti self) prodotto;
  let tempo_per_unita := tempo_per_kg info_prodotto in
  let capacita := capacita_giornaliera info_prodotto in
  giorni_necessari ← lift (truediv quantita capacita);
  let tempo_lavorazione := mul quantita tempo_per_unita in
  giorni_effettivi ←
    (if gt quantita capacita then
       d ← lift (truediv quantita capacita);
       r ← lift (mod_ quantita capacita);
       mret (int d + (if gt r (Int 0) then 1 else 0))%Z
     else mret 1%Z);
  mret {| Stima.prodotto := nome info_prodotto;
          Stima.quantita := quantita;
          Stima.tempo_lavorazione_ore := round2 tempo_lavorazione;
          Stima.tempo_lavorazione_giorni := round2 giorni_necessari;
          Stima.giorni_effettivi := giorni_effettivi;
          Stima.tempo_totale_ore := (giorni_effettivi * 8)%Z |}.

Definition Acc : Type := (list Stima.t * num * Z)%type.

Fixpoint ciclo_prodotti (membri : list string) (acc : Acc) : M Acc :=
  match membri with
  | [] => mret acc
  | prodotto :: resto =>
      self ← get;
      match assoc prodotto (quantita_produzione self) with
      | None => ciclo_prodotti resto acc
      | Some quantita =>
          let '(risultati, tempo_totale_ore, tempo_totale_giorni) := acc in
          risultato ← calcola_tempo_produzione prodotto quantita;
          ciclo_prodotti resto
            (risultati ++ [risultato],
             add tempo_totale_ore (Stima.tempo_lavorazione_ore risultato),
             Z.max tempo_totale_giorni (Stima.giorni_effettivi risultato))
      end
  end.

Definition simula_sequenza_produttiva (nome_sequenza : string) : M (option Sequenza.t) :=
  self ← get;
  match assoc nome_sequenza (sequenze self) with
  | None => mret None
  | Some membri =>
      '(risultati, tempo_totale_ore, tempo_totale_giorni) ←
        ciclo_prodotti membri ([], Int 0, 0%Z);
      media ← lift (truediv tempo_totale_ore (Int (Z.max tempo_totale_giorni 1)));
      mret (Some {| Sequenza.sequenza := nome_sequenza;
                    Sequenza.dettagli_prodotti := risultati;
                    Sequenza.tempo_totale_ore := round2 tempo_totale_ore;
                    Sequenza.giorni_totali := tempo_totale_giorni;
                    Sequenza.ore_medie_giorno := round2 media |})
  end.

(** [sum(...)]: the numbers are added from the left, starting from
    the [int] 0. *)
Definition somma (l : list num) : num := foldl add (Int 0) l.

Fixpoint ciclo_sequenze (nomi : list string) : M (list (string * option Sequenza.t)) :=
  match nomi with
  | [] => mret []
  | nome_sequenza :: resto =>
      risultato_sequenza ← simula_sequenza_produttiva nome_sequenza;
      altri ← ciclo_sequenze resto;
      mret ((nome_sequenza, risultato_sequenza) :: altri)
  end.

Definition non_assenti (l : list (string * option Sequenza.t)) : list Sequenza.t :=
  omap snd l.

Definition rapporto_produzione_completo (adesso : string) : M Rapporto.t :=
  self ← get;
  seqs ← ciclo_sequenze (fst <$> sequenze self);
  let tempo_totale_generale := somma (Sequenza.tempo_totale_ore <$> non_assenti seqs) in
  giorni_totali_generale ← lift (massimo (Sequenza.giorni_totali <$> non_assenti seqs));
  media ← lift (truediv tempo_totale_generale (Int (Z.max giorni_totali_generale 1)));
  let quantita_totale := somma (snd <$> quantita_produzione self) in
  mret {| Rapporto.data_simulazione := adesso;
          Rapporto.quantita_produzione := quantita_produzione self;
          Rapporto.sequenze := seqs;
          Rapporto.totali_generali :=
            {| Totali.tempo_totale_ore := round2 tempo_totale_generale;
               Totali.giorni_totali := giorni_totali_generale;
               Totali.ore_medie_giorno := round2 media;
               Totali.quantita_totale_kg := quantita_totale |} |}.

(** The catalog and the sequences of [__init__]. *)
Definition prodotti_iniziali : gmap string Prodotto :=
  <["carne_bovina" :=
      {| nome := "Carne Bovina"; tempo_per_kg := lit 0.15;
         capacita_giornaliera := Int 500; unita_misura := "kg" |}]>
  (<["carne_suina" :=
      {| nome := "Carne Suina"; tempo_per_kg := lit 0.12;
         capacita_giornaliera := Int 400; unita_misura := "kg" |}]>
  (<["salumi" :=
      {| nome := "Salumi"; tempo_per_kg := lit 0.25;
         capacita_giornaliera := Int 200; unita_misura := "kg" |}]>
  (<["formaggi" :=
      {| nome := "Formaggi"; tempo_per_kg := lit 0.20;
         capacita_giornaliera := Int 150; unita_misura := "kg" |}]> ∅))).

Definition init : Simulatore :=
  {| prodotti := prodotti_iniziali;
     sequenze := sequenze_iniziali;
     quantita_produzione := [];
     capacita_complessiva := None |}.

(** An instance whose quantity table has been replaced. *)
Definition con_quantita (self : Simulatore) (d : list (string * num)) : Simulatore :=
  {| prodotti := prodotti self; sequenze := sequenze self;
     quantita_produzione := d;
     capacita_complessiva := capacita_complessiva self |}.

(** The members of a sequence that have a quantity. *)
Definition risolti (self : Simulatore) (membri : list string) : list string :=
  filter (fun p => is_Some (assoc p (quantita_produzione self))) membri.

(** A member that fits in [d] days: it has no quantity or no catalog
    entry, or its quantity and its capacity are [int]s, the capacity
    positive, the quantity from 0 to below [2 ** 53] and at most [d]
    days of the capacity. *)
Definition entro (self : Simulatore) (d : Z) (p : string) : bool :=
  match assoc p (quantita_produzione self), prodotti self !! p with
  | Some (Int q), Some info =>
      match capacita_giornaliera info with
      | Int c => (0 <? c)%Z && (0 <=? q)%Z && (q <? 2 ^ 53)%Z && (q <=? d * c)%Z
      | Float _ => false
      end
  | Some (Float _), Some _ => false
  | _, _ => true
  end.

End B64.

(** ** Facts on the arithmetic *)

Section Arithmetic.

Lemma gt_true (x y : Q) : gt x y = true <-> y < x.
Proof.
  unfold gt. rewrite Qgt_alt. destruct (Qcompare x y); split; congruence.
Qed.

Lemma gt_false (x y : Q) : gt x y = false <-> x <= y.
Proof.
  unfold gt. rewrite Qle_alt. destruct (Qcompare x y); split; congruence.
Qed.

Lemma Qeq_bool_false (x y : Q) : Qeq_bool x y = false <-> ~ x == y.
Proof.
  split.
  - intros H E. apply Qeq_eq_bool in E. congruence.
  - intros H. destruct (Qeq_bool x y) eqn:E; [|reflexivity].
    apply Qeq_bool_eq in E. contradiction.
Qed.

Lemma Qfloor_unique (x : Q) (n : Z) :
  inject_Z n <= x -> x < inject_Z (n + 1) -> Qfloor x = n.
Proof.
  intros Hlo Hhi.
  pose proof (Qfloor_le x) as Hf. pose proof (Qlt_floor x) as Hf'.
  assert (inject_Z n < inject_Z (Qfloor x + 1)) as H1 by lra.
  assert (inject_Z (Qfloor x) < inject_Z (n + 1)) as H2 by lra.
  rewrite <- Zlt_Qlt in H1, H2. lia.
Qed.

Lemma Qceiling_unique (x : Q) (n : Z) :
  inject_Z (n - 1) < x -> x <= inject_Z n -> Qceiling x = n.
Proof.
  intros Hlo Hhi.
  pose proof (Qle_ceiling x) as Hc. pose proof (Qceiling_lt x) as Hc'.
  assert (inject_Z (n - 1) < inject_Z (Qceiling x)) as H1 by lra.
  assert (inject_Z (Qceiling x - 1) < inject_Z n) as H2 by lra.
  rewrite <- Zlt_Qlt in H1, H2. lia.
Qed.

Lemma int_nonneg (x : Q) : 0 <= x -> Py.int x = Qfloor x.
Proof.
  destruct x as [n d]. unfold Qle, Py.int. simpl. intros H.
  apply Z.quot_div_nonneg; lia.
Qed.

(** On a positive capacity exceeded by the quantity, the day count of
    the estimator is the ceiling of the ratio. *)
Lemma giorni_ceiling (q c : Q) :
  0 < c -> c < q ->
  (Py.int (q / c) +
     (if gt (q - c * inject_Z (Qfloor (q / c))) 0 then 1 else 0))%Z
  = Qceiling (q / c).
Proof.
  intros Hc Hq.
  assert (Hx : c * (q / c) == q) by (apply Qmult_div_r; lra).
  assert (H1 : 1 < q / c) by (apply Qlt_shift_div_l; lra).
  set (x := q / c) in *.
  rewrite int_nonneg by lra.
  pose proof (Qfloor_le x) as Hf. pose proof (Qlt_floor x) as Hf'.
  rewrite inject_Z_plus in Hf'.
  destruct (gt _ _) eqn:E.
  - apply gt_true in E. symmetry. apply Qceiling_unique.
    + replace (Qfloor x + 1 - 1)%Z with (Qfloor x) by lia. nra.
    + rewrite inject_Z_plus. lra.
  - apply gt_false in E. rewrite Z.add_0_r. symmetry. apply Qceiling_unique.
    + rewrite <- Z.add_opp_r, inject_Z_plus, inject_Z_opp. change (inject_Z 1) with 1. lra.
    + nra.
Qed.

Lemma round_half_even_comp (x y : Q) :
  x == y -> round_half_even x = round_half_even y.
Proof.
  intros E. unfold round_half_even.
  rewrite (Qfloor_comp _ _ E).
  assert (x - inject_Z (Qfloor y) == y - inject_Z (Qfloor y)) as E' by lra.
  rewrite (Qcompare_comp _ _ E' _ _ (Qeq_refl _)). reflexivity.
Qed.

Lemma round_half_even_Z (n : Z) : round_half_even (inject_Z n) = n.
Proof.
  unfold round_half_even. rewrite Qfloor_Z.
  destruct (Qcompare_spec (inject_Z n - inject_Z n) (1 # 2)) as [H|H|H];
    [exfalso; lra | reflexivity | exfalso; lra].
Qed.

Lemma round_half_even_mono (x y : Q) :
  x <= y -> (round_half_even x <= round_half_even y)%Z.
Proof.
  intros Hxy. pose proof (Qfloor_resp_le _ _ Hxy) as Hf.
  unfold round_half_even.
  destruct (decide (Qfloor x = Qfloor y)) as [E|E].
  - rewrite E in *.
    destruct (Qcompare_spec (x - inject_Z (Qfloor y)) (1 # 2)) as [Ex|Ex|Ex];
      destruct (Qcompare_spec (y - inject_Z (Qfloor y)) (1 # 2)) as [Ey|Ey|Ey];
      try (exfalso; lra); destruct (Z.even (Qfloor y)); lia.
  - destruct (Qcompare (x - _) _), (Qcompare (y - _) _);
      destruct (Z.even (Qfloor x)), (Z.even (Qfloor y)); lia.
Qed.

Lemma round2_comp (x y : Q) : x == y -> round2 x = round2 y.
Proof.
  intros E. unfold round2. f_equal. apply round_half_even_comp. lra.
Qed.

(** A number of whole hundredths is left alone. *)
Lemma round2_hundredths (x : Q) (n : Z) : x == n # 100 -> round2 x = n # 100.
Proof.
  intros E. unfold round2. f_equal.
  rewrite <- (round_half_even_Z n). apply round_half_even_comp.
  rewrite E. unfold Qeq. simpl. lia.
Qed.

Lemma round2_Z (n : Z) : round2 (inject_Z n) == inject_Z n.
Proof.
  rewrite (round2_hundredths _ (n * 100)); unfold Qeq; simpl; lia.
Qed.

Lemma round2_mono (x y : Q) : x <= y -> round2 x <= round2 y.
Proof.
  intros H. unfold round2, Qle. simpl.
  apply Z.mul_le_mono_nonneg_r; [lia|].
  apply round_half_even_mono. lra.
Qed.

Lemma round2_idem (x : Q) : round2 (round2 x) = round2 x.
Proof. apply round2_hundredths. reflexivity. Qed.

End Arithmetic.

(** ** The methods, functionally *)

Section Methods.

Lemma ore_medie_eq (ore : Q) (giorni : Z) :
  ore_medie ore giorni = Ret (ore / inject_Z (Z.max giorni 1)).
Proof.
  unfold ore_medie, truediv.
  destruct (Qeq_bool _ 0) eqn:E; [|reflexivity].
  apply Qeq_bool_eq in E. unfold Qeq in E. simpl in E. lia.
Qed.

Lemma calcola_eq (self : Simulatore) (p : string) (q : Q) :
  calcola_tempo_produzione p q self = (esito_stima self p q, self).
Proof.
  unfold calcola_tempo_produzione, esito_stima, getitem, lift, truediv, mod_,
    mbind, M_bind, mret, M_ret, get.
  destruct (prodotti self !! p) as [info|]; [|reflexivity].
  destruct (Qeq_bool (capacita_giornaliera info) 0); [reflexivity|].
  unfold stima_di, giorni_di.
  destruct (gt q (capacita_giornaliera info)); reflexivity.
Qed.

Lemma stime_di_cons_None (self : Simulatore) p l :
  quantita_produzione self !! p = None ->
  stime_di self (p :: l) = stime_di self l.
Proof. intros H. unfold stime_di. simpl. rewrite H. reflexivity. Qed.

Lemma stime_di_cons_Some (self : Simulatore) p q l :
  quantita_produzione self !! p = Some q ->
  stime_di self (p :: l) = esito_stima self p q :: stime_di self l.
Proof.
  intros H. unfold stime_di. simpl. rewrite H. simpl.
  rewrite calcola_eq. reflexivity.
Qed.

(** The loop reads the instance and leaves it as it is. *)
Lemma ciclo_eq (self : Simulatore) (membri : list string) :
  forall ris ore g,
    ciclo_prodotti membri (ris, ore, g) self =
    (match tutti (stime_di self membri) with
     | Ret stime => Ret (ris ++ stime, ore_di ore stime, giorni_max g stime)
     | Raise e => Raise e
     end, self).
Proof.
  induction membri as [|p l IH]; intros ris ore g.
  - simpl. rewrite app_nil_r. reflexivity.
  - cbn [ciclo_prodotti]. unfold mbind at 1, M_bind at 1, get at 1.
    destruct (quantita_produzione self !! p) as [q|] eqn:Hq.
    + rewrite (stime_di_cons_Some _ _ _ _ Hq).
      unfold mbind, M_bind. rewrite calcola_eq.
      destruct (esito_stima self p q) as [r|e]; [|reflexivity].
      fold (@mbind M _). rewrite IH. simpl.
      destruct (tutti (stime_di self l)) as [stime|e]; [|reflexivity].
      rewrite <- app_assoc. reflexivity.
    + rewrite (stime_di_cons_None _ _ _ Hq). apply IH.
Qed.

Lemma simula_eq (self : Simulatore) (nome : string) :
  simula_sequenza_produttiva nome self =
  (match assoc nome (sequenze self) with
   | None => Ret None
   | Some membri =>
       match tutti (stime_di self membri) with
       | Ret stime => Ret (Some (rapporto_di nome stime))
       | Raise e => Raise e
       end
   end, self).
Proof.
  unfold simula_sequenza_produttiva, mbind, M_bind, get.
  destruct (assoc nome (sequenze self)) as [membri|]; [|reflexivity].
  rewrite ciclo_eq.
  destruct (tutti (stime_di self membri)) as [stime|e]; [|reflexivity].
  unfold lift. rewrite ore_medie_eq. reflexivity.
Qed.

End Methods.

(** ** The estimator *)

Section Estimator.

Variables (self : Simulatore) (p : string) (info : Prodotto).
Hypothesis in_catalog : prodotti self !! p = Some info.

Lemma calcola_positive (q : Q) :
  0 < capacita_giornaliera info ->
  calcola_tempo_produzione p q self = (Ret (stima_di info q), self).
Proof.
  intros Hc. rewrite calcola_eq. unfold esito_stima. rewrite in_catalog.
  destruct (Qeq_bool _ 0) eqn:E; [|reflexivity].
  apply Qeq_bool_eq in E. exfalso. lra.
Qed.

Lemma giorni_di_within (q c : Q) : q <= c -> giorni_di q c = 1%Z.
Proof. intros H. unfold giorni_di. apply gt_false in H. rewrite H. reflexivity. Qed.

Lemma giorni_di_beyond (q c : Q) :
  0 < c -> c < q -> giorni_di q c = Qceiling (q / c).
Proof.
  intros Hc H. unfold giorni_di.
  pose proof (proj2 (gt_true q c) H) as E. rewrite E.
  apply giorni_ceiling; assumption.
Qed.

Lemma ceiling_beyond (q c : Q) : 0 < c -> c < q -> (2 <= Qceiling (q / c))%Z.
Proof.
  intros Hc H.
  assert (1 < q / c) as H1 by (apply Qlt_shift_div_l; lra).
  pose proof (Qle_ceiling (q / c)) as H2.
  set (x := q / c) in *.
  assert (inject_Z 1 < inject_Z (Qceiling x)) as H3
    by (change (inject_Z 1) with 1; lra).
  rewrite <- Zlt_Qlt in H3. lia.
Qed.

(** C5. In every estimate returned for a positive daily capacity,
    [giorni_effettivi] is at least the reported
    [tempo_lavorazione_giorni]. *)
Theorem C5_giorni_effettivi_ge_giorni (q : Q) :
  0 < capacita_giornaliera info ->
  exists r,
    calcola_tempo_produzione p q self = (Ret r, self) /\
    Stima.tempo_lavorazione_giorni r <= inject_Z (Stima.giorni_effettivi r).
Proof.
  intros Hc. exists (stima_di info q).
  split; [apply calcola_positive; assumption|]. simpl.
  set (c := capacita_giornaliera info) in *.
  destruct (Qlt_le_dec c q) as [H|H].
  - rewrite giorni_di_beyond by assumption.
    rewrite <- (round2_Z (Qceiling (q / c))).
    apply round2_mono, Qle_ceiling.
  - rewrite giorni_di_within by assumption.
    rewrite <- (round2_Z 1). apply round2_mono.
    apply Qle_shift_div_r; [assumption|]. change (inject_Z 1) with 1. lra.
Qed.


End Estimator.

Lemma C5_giorni_effettivi_ge_giorni_witness :
  exists r,
    calcola_tempo_produzione "salumi" 401 init = (Ret r, init) /\
    Stima.tempo_lavorazione_giorni r <= inject_Z (Stima.giorni_effettivi r).
Proof.
  apply (C5_giorni_effettivi_ge_giorni init "salumi"
           {| nome := "Salumi"; tempo_per_kg := 0.25;
              capacita_giornaliera := 200; unita_misura := "kg" |});
    reflexivity.
Defined.



(** ** The sequence aggregator *)

Section Aggregator.

Lemma tutti_Ret {A : Type} (l : list (outcome A)) (vs : list A) :
  tutti l = Ret vs <-> l = Ret <$> vs.
Proof.
  revert vs. induction l as [|[a|e] l IH]; intros vs; simpl.
  - split; intros H.
    + injection H as <-. reflexivity.
    + destruct vs; [reflexivity | discriminate].
  - destruct (tutti l) as [r|e] eqn:E; split; intros H.
    + injection H as <-. simpl. f_equal. apply IH. reflexivity.
    + destruct vs as [|v vs]; [discriminate|]. simpl in H.
      injection H as -> H. apply IH in H. congruence.
    + discriminate.
    + destruct vs as [|v vs]; [discriminate|]. simpl in H.
      injection H as -> H. apply IH in H. congruence.
  - split; intros H; [discriminate|].
    destruct vs; discriminate.
Qed.

Lemma tutti_Raise {A : Type} (l : list (outcome A)) (e : exn) :
  Raise e ∈ l -> exists e', tutti l = Raise e'.
Proof.
  induction l as [|[a|e0] l IH]; intros H.
  - inversion H.
  - apply elem_of_cons in H as [H|H]; [discriminate|].
    destruct (IH H) as [e' E]. exists e'. simpl. rewrite E. reflexivity.
  - exists e0. reflexivity.
Qed.

Variable self : Simulatore.

(** What a returned report is made of. *)
Lemma simula_inv (nome : string) (r : Sequenza.t) (self' : Simulatore) :
  simula_sequenza_produttiva nome self = (Ret (Some r), self') ->
  self' = self /\
  exists membri stime,
    assoc nome (sequenze self) = Some membri /\
    stime_di self membri = Ret <$> stime /\
    r = rapporto_di nome stime.
Proof.
  rewrite simula_eq. intros H. injection H as H <-. split; [reflexivity|].
  destruct (assoc nome (sequenze self)) as [membri|]; [|discriminate].
  destruct (tutti (stime_di self membri)) as [stime|e] eqn:E; [|discriminate].
  injection H as <-. exists membri, stime.
  apply tutti_Ret in E. auto.
Qed.


Lemma stime_di_ok (membri : list string) :
  forallb (stimabile self) membri = true ->
  exists stime, stime_di self membri = Ret <$> stime /\
                length stime = length (risolti self membri) /\
                Forall (fun d => (1 <= Stima.giorni_effettivi d)%Z) stime.
Proof.
  induction membri as [|p l IH]; intros H.
  - exists []. repeat split. constructor.
  - cbn [forallb] in H. apply andb_true_iff in H as [Hp Hl]. destruct (IH Hl) as (stime & E & Hlen & Hpos).
    unfold stimabile in Hp. unfold risolti. rewrite filter_cons.
    destruct (quantita_produzione self !! p) as [q|] eqn:Hq.
    + destruct (prodotti self !! p) as [info|] eqn:Hi; [|discriminate].
      apply gt_true in Hp.
      exists (stima_di info q :: stime).
      rewrite (stime_di_cons_Some _ _ _ _ Hq), E.
      unfold esito_stima. rewrite Hi.
      destruct (Qeq_bool _ 0) eqn:E0;
        [apply Qeq_bool_eq in E0; exfalso; lra|].
      rewrite decide_True by eauto. simpl. repeat split.
      * f_equal. exact Hlen.
      * constructor; [|exact Hpos]. simpl.
        destruct (Qlt_le_dec (capacita_giornaliera info) q) as [Hb|Hw].
        -- rewrite giorni_di_beyond by assumption.
           pose proof (ceiling_beyond _ _ Hp Hb). lia.
        -- rewrite giorni_di_within by assumption. lia.
    + exists stime. rewrite (stime_di_cons_None _ _ _ Hq).
      rewrite decide_False by (intros [? ?]; discriminate).
      auto.
Qed.

(** A sequence whose resolved members are all estimable is reported. *)
Lemma simula_ok (nome : string) (membri : list string) :
  assoc nome (sequenze self) = Some membri ->
  forallb (stimabile self) membri = true ->
  exists stime,
    simula_sequenza_produttiva nome self = (Ret (Some (rapporto_di nome stime)), self) /\
    stime_di self membri = Ret <$> stime /\
    length stime = length (risolti self membri) /\
    Forall (fun d => (1 <= Stima.giorni_effettivi d)%Z) stime.
Proof.
  intros Ha Hs. destruct (stime_di_ok membri Hs) as (stime & E & Hlen & Hpos).
  exists stime. rewrite simula_eq, Ha.
  rewrite (proj2 (tutti_Ret _ _) E). auto.
Qed.

Lemma ore_di_somma (stime : list Stima.t) :
  ore_di 0 stime = somma (Stima.tempo_lavorazione_ore <$> stime).
Proof. unfold ore_di, somma. rewrite foldl_fmap. reflexivity. Qed.

Lemma giorni_max_massimo (stime : list Stima.t) :
  giorni_max 0 stime = massimo_giorni (Stima.giorni_effettivi <$> stime).
Proof. unfold giorni_max, massimo_giorni. rewrite foldl_fmap. reflexivity. Qed.

(** C10. An unknown sequence name makes [simula_sequenza_produttiva]
    return [None], without an exception, and leaves every attribute of
    the instance as it was. *)
Theorem C10_sequenza_sconosciuta (nome : string) :
  assoc nome (sequenze self) = None ->
  simula_sequenza_produttiva nome self = (Ret None, self).
Proof. intros H. rewrite simula_eq, H. reflexivity. Qed.

End Aggregator.

Lemma C10_sequenza_sconosciuta_witness :
  simula_sequenza_produttiva "sequenza_stagionatura" init = (Ret None, init).
Proof. apply C10_sequenza_sconosciuta. reflexivity. Defined.

(** ** Totals of a sequence report *)

Section Totals.






Variable self : Simulatore.



(** C4 (amended). When a member of the sequence has a quantity but no
    catalog entry, or a catalog entry of capacity zero, the exception
    raised by its estimate leaves [simula_sequenza_produttiva]: the
    call ends with an exception and returns no report. *)
Theorem C4_errore_propagato (nome : string) (membri : list string) (p : string) (q : Q) :
  assoc nome (sequenze self) = Some membri ->
  p ∈ membri ->
  quantita_produzione self !! p = Some q ->
  prodotti self !! p = None \/
  (exists info, prodotti self !! p = Some info /\ capacita_giornaliera info == 0) ->
  exists e, simula_sequenza_produttiva nome self = (Raise e, self).
Proof.
  intros Ha Hp Hq Hbad.
  assert (exists e, Raise e ∈ stime_di self membri) as [e He].
  { destruct Hbad as [Hn|(info & Hi & Hz)].
    - exists (KeyError p). unfold stime_di. apply list_elem_of_omap.
      exists p. split; [assumption|]. rewrite Hq. simpl.
      rewrite calcola_eq. unfold esito_stima. rewrite Hn. reflexivity.
    - exists ZeroDivisionError. unfold stime_di. apply list_elem_of_omap.
      exists p. split; [assumption|]. rewrite Hq. simpl.
      rewrite calcola_eq. unfold esito_stima. rewrite Hi.
      apply Qeq_eq_bool in Hz. rewrite Hz. reflexivity. }
  destruct (tutti_Raise _ _ He) as [e' E]. exists e'.
  rewrite simula_eq, Ha, E. reflexivity.
Qed.

End Totals.

Lemma C4_errore_propagato_witness :
  exists e,
    simula_sequenza_produttiva "sequenza_macellazione" stato_senza_bovina
    = (Raise e, stato_senza_bovina).
Proof.
  apply (C4_errore_propagato stato_senza_bovina "sequenza_macellazione"
           ["carne_bovina"; "carne_suina"]%string "carne_bovina" 100).
  - reflexivity.
  - apply list_elem_of_here.
  - reflexivity.
  - left. reflexivity.
Defined.

(** C4, as stated, fails.  With ["carne_bovina"] in the sequence and in
    the quantity table but not in the catalog, its sibling
    ["carne_suina"] can be estimated, yet the pass over the sequence
    ends with [KeyError] instead of a report; so does, with
    [ZeroDivisionError], a pass over a product whose capacity was set to
    zero through [configura_capacita_giornaliera]. *)
Lemma C4_counterexample :
  (exists r, calcola_tempo_produzione "carne_suina" 100 stato_senza_bovina
             = (Ret r, stato_senza_bovina)) /\
  fst (simula_sequenza_produttiva "sequenza_macellazione" stato_senza_bovina)
  = Raise (KeyError "carne_bovina") /\
  fst (simula_sequenza_produttiva "sequenza_macellazione"
         (snd (configura_capacita_giornaliera "carne_bovina" 0 stato_macellazione)))
  = Raise ZeroDivisionError.
Proof.
  split; [eexists; vm_compute; reflexivity|].
  split; vm_compute; reflexivity.
Qed.

(** ** Days of a sequence report *)

Section Days.

Lemma foldl_max_ge (l : list Z) : forall a, (a <= foldl Z.max a l)%Z.
Proof.
  induction l as [|x l IH]; intros a; simpl; [lia|].
  specialize (IH (Z.max a x)). lia.
Qed.

Lemma foldl_max_ub (l : list Z) :
  forall a, Forall (fun g => (g <= foldl Z.max a l)%Z) l.
Proof.
  induction l as [|x l IH]; intros a; simpl; constructor.
  - pose proof (foldl_max_ge l (Z.max a x)). lia.
  - apply IH.
Qed.

Lemma foldl_max_in (l : list Z) :
  forall a, foldl Z.max a l = a \/ foldl Z.max a l ∈ l.
Proof.
  induction l as [|x l IH]; intros a; simpl; [left; reflexivity|].
  destruct (IH (Z.max a x)) as [E|E].
  - rewrite E. destruct (Z.max_spec a x) as [[_ ->]|[_ ->]].
    + right. apply list_elem_of_here.
    + left. reflexivity.
  - right. apply list_elem_of_further, E.
Qed.

(** Over day counts that are all at least 1, the largest one plus the
    number of the others is at most the sum. *)
Lemma foldl_max_sum (l : list Z) :
  Forall (fun g => (1 <= g)%Z) l ->
  forall m s c,
    (1 <= m)%Z -> (m + c <= s)%Z ->
    (foldl Z.max m l + (c + Z.of_nat (length l)) <= foldl Z.add s l)%Z.
Proof.
  induction 1 as [|x l Hx _ IH]; intros m s c Hm Hs; simpl.
  - lia.
  - specialize (IH (Z.max m x) (s + x)%Z (c + 1)%Z). lia.
Qed.

Variable self : Simulatore.

(** C2 (amended). When the resolved members of a sequence can all be
    estimated, the report is returned and its [giorni_totali] is the
    largest of the members' [giorni_effettivi]: an upper bound of
    them all that is one of them, 0 when no member is resolved, and
    strictly less than their sum as soon as there are two members. *)
Theorem C2_giorni_totali (nome : string) (membri : list string) :
  assoc nome (sequenze self) = Some membri ->
  forallb (stimabile self) membri = true ->
  exists r,
    simula_sequenza_produttiva nome self = (Ret (Some r), self) /\
    let giorni := Stima.giorni_effettivi <$> Sequenza.dettagli_prodotti r in
    Sequenza.giorni_totali r = massimo_giorni giorni /\
    Forall (fun g => (g <= Sequenza.giorni_totali r)%Z) giorni /\
    (giorni <> [] -> Sequenza.giorni_totali r ∈ giorni) /\
    (giorni = [] -> Sequenza.giorni_totali r = 0%Z) /\
    (risolti self membri = [] -> giorni = []) /\
    ((2 <= length giorni)%nat ->
     (Sequenza.giorni_totali r < somma_giorni giorni)%Z).
Proof.
  intros Ha Hs.
  destruct (simula_ok self nome membri Ha Hs) as (stime & E & _ & Hlen & Hpos).
  exists (rapporto_di nome stime). split; [exact E|].
  cbn [rapporto_di Sequenza.giorni_totali Sequenza.dettagli_prodotti].
  rewrite giorni_max_massimo.
  assert (Forall (fun g => (1 <= g)%Z) (Stima.giorni_effettivi <$> stime)) as Hl
    by (apply Forall_fmap; exact Hpos).
  assert (length (Stima.giorni_effettivi <$> stime) = length (risolti self membri))
    as Hlen' by (rewrite length_fmap; exact Hlen).
  set (l := Stima.giorni_effettivi <$> stime) in *. clearbody l.
  unfold massimo_giorni, somma_giorni.
  split; [reflexivity|]. split; [apply foldl_max_ub|].
  split; [|split; [|split]].
  - intros Hne. destruct (foldl_max_in l 0%Z) as [E0|Hin]; [|exact Hin].
    destruct l as [|x l']; [contradiction|]. exfalso.
    pose proof (foldl_max_ub (x :: l') 0%Z) as Hub.
    apply Forall_cons in Hub as [Hx _]. apply Forall_cons in Hl as [Hx1 _]. lia.
  - intros ->. reflexivity.
  - intros Hr. rewrite Hr in Hlen'. destruct l; [reflexivity|discriminate].
  - intros H2. destruct l as [|x l']; [simpl in H2; lia|].
    apply Forall_cons in Hl as [Hx Hl']. simpl.
    pose proof (foldl_max_sum l' Hl' (Z.max 0 x) (0 + x)%Z 0%Z) as H.
    simpl in H2. lia.
Qed.

End Days.

Lemma C2_giorni_totali_witness :
  exists r,
    simula_sequenza_produttiva "sequenza_trasformazione" stato_trasformazione
    = (Ret (Some r), stato_trasformazione) /\
    let giorni := Stima.giorni_effettivi <$> Sequenza.dettagli_prodotti r in
    Sequenza.giorni_totali r = massimo_giorni giorni /\
    Forall (fun g => (g <= Sequenza.giorni_totali r)%Z) giorni /\
    (giorni <> [] -> Sequenza.giorni_totali r ∈ giorni) /\
    (giorni = [] -> Sequenza.giorni_totali r = 0%Z) /\
    (risolti stato_trasformazione ["salumi"; "formaggi"]%string = [] -> giorni = []) /\
    ((2 <= length giorni)%nat ->
     (Sequenza.giorni_totali r < somma_giorni giorni)%Z).
Proof.
  apply (C2_giorni_totali stato_trasformazione "sequenza_trasformazione"
           ["salumi"; "formaggi"]%string); reflexivity.
Defined.

(** C2, as stated, fails on its last part: on a fresh instance no
    quantity is set, every member of ["sequenza_macellazione"] is
    skipped, and the report has [giorni_totali] 0, not 1. *)
Lemma C2_counterexample :
  exists r,
    simula_sequenza_produttiva "sequenza_macellazione" init = (Ret (Some r), init) /\
    Sequenza.dettagli_prodotti r = [] /\
    Sequenza.giorni_totali r = 0%Z /\
    Sequenza.giorni_totali r <> 1%Z.
Proof.
  eexists. split; [vm_compute; reflexivity|].
  repeat split. discriminate.
Qed.

(** ** A member without quantity *)

Section Skip.

Variables (self : Simulatore) (k : string) (qk : Q).
Hypothesis no_quantity : quantita_produzione self !! k = None.

Local Abbreviation self' := (fornisci_quantita self k qk).

Lemma stime_saltato (membri : list string) :
  forall stime',
    stime_di self' membri = Ret <$> stime' ->
    let stime :=
      snd <$> filter (fun x => x.1 <> k) (zip (risolti self' membri) stime') in
    stime_di self membri = Ret <$> stime /\
    length stime' = length (risolti self' membri) /\
    length stime' = (length stime + length (filter (fun p => p = k) membri))%nat.
Proof.
  induction membri as [|p l IH]; intros stime' E.
  - destruct stime'; [|discriminate]. repeat split.
  - unfold risolti. rewrite !filter_cons. fold (risolti self' l).
    destruct (decide (p = k)) as [->|Hp].
    + assert (quantita_produzione self' !! k = Some qk) as Hq
        by apply lookup_insert_eq.
      rewrite (stime_di_cons_Some _ _ _ _ Hq) in E.
      destruct stime' as [|d s1]; [discriminate|].
      injection E as _ E. destruct (IH _ E) as (E1 & L1 & L2).
      rewrite decide_True by eauto. cbn [zip zip_with].
      rewrite filter_cons, decide_False by (simpl; intros H; apply H; reflexivity).
      rewrite (stime_di_cons_None _ _ _ no_quantity).
      split; [exact E1|]. simpl. split; [f_equal; exact L1|].
      rewrite L2. lia.
    + assert (quantita_produzione self' !! p = quantita_produzione self !! p) as Hq
        by (apply lookup_insert_ne; congruence).
      destruct (quantita_produzione self !! p) as [q|] eqn:Hqp.
      * rewrite (stime_di_cons_Some _ _ _ _ Hq) in E.
        destruct stime' as [|d s1]; [discriminate|].
        injection E as Ed E. destruct (IH _ E) as (E1 & L1 & L2).
        rewrite decide_True by (rewrite Hq; eauto). cbn [zip zip_with].
        rewrite filter_cons, decide_True by (simpl; exact Hp).
        rewrite (stime_di_cons_Some _ _ _ _ Hqp).
        split; [simpl; f_equal; [exact Ed | exact E1]|].
        simpl. split; [f_equal; exact L1 | f_equal; exact L2].
      * rewrite (stime_di_cons_None _ _ _ Hq) in E.
        destruct (IH _ E) as (E1 & L1 & L2).
        rewrite decide_False by (rewrite Hq; intros [? ?]; discriminate).
        rewrite (stime_di_cons_None _ _ _ Hqp). auto.
Qed.

End Skip.


(** ** The facility report and the daily averages *)

Section Averages.

Variable self : Simulatore.

Lemma simula_stato (nome : string) :
  simula_sequenza_produttiva nome self
  = (fst (simula_sequenza_produttiva nome self), self).
Proof. rewrite simula_eq. reflexivity. Qed.



End Averages.


(** * Further properties *)

(** ** The estimator: outcomes, bounds and monotonicity *)

Section EstimatorMore.

Lemma round_half_even_near (x : Q) :
  inject_Z (round_half_even x) - (1 # 2) <= x /\
  x <= inject_Z (round_half_even x) + (1 # 2).
Proof.
  pose proof (Qfloor_le x) as Hf. pose proof (Qlt_floor x) as Hf'.
  rewrite inject_Z_plus in Hf'. change (inject_Z 1) with 1 in Hf'.
  unfold round_half_even.
  destruct (Qcompare_spec (x - inject_Z (Qfloor x)) (1 # 2)) as [E|E|E].
  - destruct (Z.even (Qfloor x));
      rewrite ?inject_Z_plus; change (inject_Z 1) with 1; lra.
  - lra.
  - rewrite inject_Z_plus. change (inject_Z 1) with 1. lra.
Qed.

Lemma round2_near (x : Q) : Qabs (round2 x - x) <= 1 # 200.
Proof.
  destruct (round_half_even_near (x * 100)) as [Hlo Hhi].
  assert (round2 x == inject_Z (round_half_even (x * 100)) / 100) as E.
  { unfold round2. rewrite (Qmake_Qdiv _ 100). reflexivity. }
  set (n := inject_Z (round_half_even (x * 100))) in *.
  assert (n / 100 == n * (1 # 100)) as E' by (unfold Qdiv; reflexivity).
  rewrite E' in E.
  apply Qabs_case; intros _; lra.
Qed.

Lemma int_nonpos (x : Q) : x <= 0 -> (Py.int x <= 0)%Z.
Proof.
  destruct x as [n d]. unfold Qle, Py.int. simpl. intros H.
  assert (n <= 0)%Z as Hn by lia.
  replace n with (- - n)%Z by lia. rewrite Z.quot_opp_l by lia.
  pose proof (Z.quot_pos (- n) (Z.pos d)). lia.
Qed.

Lemma giorni_di_mono (q1 q2 c : Q) :
  0 < c -> q1 <= q2 -> (giorni_di q1 c <= giorni_di q2 c)%Z.
Proof.
  intros Hc H. destruct (Qlt_le_dec c q2) as [H2|H2].
  - rewrite (giorni_di_beyond q2 c Hc H2).
    pose proof (ceiling_beyond q2 c Hc H2) as Hge.
    destruct (Qlt_le_dec c q1) as [H1|H1].
    + rewrite (giorni_di_beyond q1 c Hc H1). apply Qceiling_resp_le.
      apply Qle_shift_div_l; [assumption|].
      rewrite Qmult_comm, Qmult_div_r by lra. assumption.
    + rewrite (giorni_di_within q1 c H1). lia.
  - rewrite (giorni_di_within q2 c H2), (giorni_di_within q1 c) by lra. lia.
Qed.

Lemma giorni_di_bastano (q c : Q) :
  0 < c -> q <= inject_Z (giorni_di q c) * c.
Proof.
  intros Hc. destruct (Qlt_le_dec c q) as [H|H].
  - rewrite (giorni_di_beyond q c Hc H).
    pose proof (Qle_ceiling (q / c)) as Hx.
    assert (c * (q / c) == q) as E by (apply Qmult_div_r; lra).
    set (x := q / c) in *. nra.
  - rewrite (giorni_di_within q c H). change (inject_Z 1) with 1. lra.
Qed.

Lemma giorni_di_minimi (q c : Q) (d : Z) :
  0 < c -> (1 <= d)%Z -> q <= inject_Z d * c -> (giorni_di q c <= d)%Z.
Proof.
  intros Hc Hd H. destruct (Qlt_le_dec c q) as [Hq|Hq].
  - rewrite (giorni_di_beyond q c Hc Hq).
    rewrite <- (Qceiling_Z d). apply Qceiling_resp_le.
    apply Qle_shift_div_r; assumption.
  - rewrite (giorni_di_within q c Hq). exact Hd.
Qed.

Variables (self : Simulatore) (p : string).

(** X1. The three outcomes of the estimator: [KeyError] on a key that
    is not in the catalog, [ZeroDivisionError] on a capacity of zero,
    and otherwise an estimate carrying the entry's display name, the
    quantity as given and eight available hours per effective day; the
    instance is never modified. *)
Theorem X1_calcola_esiti (q : Q) :
  (prodotti self !! p = None ->
   calcola_tempo_produzione p q self = (Raise (KeyError p), self)) /\
  (forall info,
      prodotti self !! p = Some info ->
      capacita_giornaliera info == 0 ->
      calcola_tempo_produzione p q self = (Raise ZeroDivisionError, self)) /\
  (forall info,
      prodotti self !! p = Some info ->
      ~ capacita_giornaliera info == 0 ->
      exists r,
        calcola_tempo_produzione p q self = (Ret r, self) /\
        Stima.prodotto r = nome info /\
        Stima.quantita r = q /\
        Stima.tempo_totale_ore r = (Stima.giorni_effettivi r * 8)%Z).
Proof.
  rewrite calcola_eq. unfold esito_stima. split; [|split].
  - intros ->. reflexivity.
  - intros info -> Hz. apply Qeq_eq_bool in Hz. rewrite Hz. reflexivity.
  - intros info -> Hz. apply Qeq_bool_false in Hz. rewrite Hz.
    eexists. split; [reflexivity|]. repeat split.
Qed.

Variable info : Prodotto.
Hypothesis in_catalog : prodotti self !! p = Some info.

(** X2. With a positive capacity, a larger quantity never gets fewer
    effective days nor a smaller reported day ratio, and with a
    non-negative rate it never gets fewer reported hours. *)
Theorem X2_calcola_monotona (q1 q2 : Q) :
  0 < capacita_giornaliera info ->
  q1 <= q2 ->
  exists r1 r2,
    calcola_tempo_produzione p q1 self = (Ret r1, self) /\
    calcola_tempo_produzione p q2 self = (Ret r2, self) /\
    (Stima.giorni_effettivi r1 <= Stima.giorni_effettivi r2)%Z /\
    Stima.tempo_lavorazione_giorni r1 <= Stima.tempo_lavorazione_giorni r2 /\
    (0 <= tempo_per_kg info ->
     Stima.tempo_lavorazione_ore r1 <= Stima.tempo_lavorazione_ore r2).
Proof.
  intros Hc H. exists (stima_di info q1), (stima_di info q2).
  rewrite !(calcola_positive self p info in_catalog) by assumption.
  cbn [stima_di Stima.giorni_effettivi Stima.tempo_lavorazione_giorni
         Stima.tempo_lavorazione_ore].
  repeat split.
  - apply giorni_di_mono; assumption.
  - apply round2_mono. unfold Qdiv. apply Qmult_le_compat_r; [assumption|].
    apply Qlt_le_weak, Qinv_lt_0_compat, Hc.
  - intros Ht. apply round2_mono. apply Qmult_le_compat_r; assumption.
Qed.


(** X5. A negative capacity is not rejected: for a non-negative
    quantity the estimator returns an estimate whose effective days,
    and so its available hours, are not positive. *)
Theorem X5_capacita_negativa (q : Q) :
  capacita_giornaliera info < 0 ->
  0 <= q ->
  exists r,
    calcola_tempo_produzione p q self = (Ret r, self) /\
    (Stima.giorni_effettivi r <= 0)%Z /\
    (Stima.tempo_totale_ore r <= 0)%Z.
Proof.
  intros Hc Hq. exists (stima_di info q). rewrite calcola_eq. unfold esito_stima.
  rewrite in_catalog.
  assert (~ capacita_giornaliera info == 0) as Hz by lra.
  apply Qeq_bool_false in Hz. rewrite Hz. split; [reflexivity|].
  cbn [stima_di Stima.giorni_effettivi Stima.tempo_totale_ore].
  set (c := capacita_giornaliera info) in *.
  assert (giorni_di q c <= 0)%Z as H; [|lia].
  unfold giorni_di.
  assert (gt q c = true) as -> by (apply gt_true; lra).
  assert (c * (q / c) == q) as E by (apply Qmult_div_r; lra).
  pose proof (Qfloor_le (q / c)) as Hf.
  set (x := q / c) in *.
  assert (x <= 0) as Hx by nra.
  assert (gt (q - c * inject_Z (Qfloor x)) 0 = false) as ->
    by (apply gt_false; nra).
  pose proof (int_nonpos x Hx). lia.
Qed.

End EstimatorMore.

Lemma X1_calcola_esiti_witness :
  calcola_tempo_produzione "pollame" 10 init = (Raise (KeyError "pollame"), init) /\
  calcola_tempo_produzione "carne_bovina" 10
    (snd (configura_capacita_giornaliera "carne_bovina" 0 init))
  = (Raise ZeroDivisionError,
     snd (configura_capacita_giornaliera "carne_bovina" 0 init)) /\
  exists r,
    calcola_tempo_produzione "carne_bovina" 10 init = (Ret r, init) /\
    Stima.prodotto r = "Carne Bovina"%string /\
    Stima.quantita r = 10 /\
    Stima.tempo_totale_ore r = (Stima.giorni_effettivi r * 8)%Z.
Proof.
  split; [|split].
  - apply (proj1 (X1_calcola_esiti init "pollame" 10)). reflexivity.
  - apply (proj1 (proj2 (X1_calcola_esiti _ "carne_bovina" 10))
             {| nome := "Carne Bovina"; tempo_per_kg := 0.15;
                capacita_giornaliera := 0; unita_misura := "kg" |});
      reflexivity.
  - apply (proj2 (proj2 (X1_calcola_esiti init "carne_bovina" 10))
             {| nome := "Carne Bovina"; tempo_per_kg := 0.15;
                capacita_giornaliera := 500; unita_misura := "kg" |});
      [reflexivity | discriminate].
Defined.

Lemma X2_calcola_monotona_witness :
  exists r1 r2,
    calcola_tempo_produzione "formaggi" 150 init = (Ret r1, init) /\
    calcola_tempo_produzione "formaggi" 151 init = (Ret r2, init) /\
    (Stima.giorni_effettivi r1 <= Stima.giorni_effettivi r2)%Z /\
    Stima.tempo_lavorazione_giorni r1 <= Stima.tempo_lavorazione_giorni r2 /\
    (0 <= 0.20 ->
     Stima.tempo_lavorazione_ore r1 <= Stima.tempo_lavorazione_ore r2).
Proof.
  apply (X2_calcola_monotona init "formaggi"
           {| nome := "Formaggi"; tempo_per_kg := 0.20;
              capacita_giornaliera := 150; unita_misura := "kg" |} eq_refl 150 151);
    [reflexivity | discriminate].
Defined.


Lemma X5_capacita_negativa_witness :
  let self := snd (configura_capacita_giornaliera "salumi" (-200) init) in
  exists r,
    calcola_tempo_produzione "salumi" 500 self = (Ret r, self) /\
    (Stima.giorni_effettivi r <= 0)%Z /\
    (Stima.tempo_totale_ore r <= 0)%Z.
Proof.
  apply (X5_capacita_negativa _ "salumi"
           {| nome := "Salumi"; tempo_per_kg := 0.25;
              capacita_giornaliera := -200; unita_misura := "kg" |});
    [reflexivity | reflexivity | discriminate].
Defined.

(** * Binary64: the day count on Python integers *)

Section Binary64.

Lemma pow2_pos (e : Z) : 0 < B64.pow2 e.
Proof. apply Qpower_0_lt. reflexivity. Qed.

Lemma pow2_Z (e : Z) : (0 <= e)%Z -> B64.pow2 e == inject_Z (2 ^ e).
Proof. intros H. unfold B64.pow2. rewrite (Zpower_Qpower 2 e H). reflexivity. Qed.

Lemma pow2_neg (s : Z) : (0 <= s)%Z -> B64.pow2 (- s) == / inject_Z (2 ^ s).
Proof.
  intros H. unfold B64.pow2. rewrite Qpower_opp.
  rewrite <- (Zpower_Qpower 2 s H). reflexivity.
Qed.

Lemma pow2_lt_inv (a b : Z) : B64.pow2 a < B64.pow2 b -> (a < b)%Z.
Proof. intros H. apply (Qpower_lt_compat_l_inv 2); [exact H | reflexivity]. Qed.

Lemma Zfrac_le (a b c d : Z) :
  (0 < b)%Z -> (0 < d)%Z -> (a * d <= c * b)%Z ->
  inject_Z a / inject_Z b <= inject_Z c / inject_Z d.
Proof.
  intros Hb Hd H.
  assert (0 < inject_Z b) as Hb' by (change 0 with (inject_Z 0); rewrite <- Zlt_Qlt; lia).
  assert (0 < inject_Z d) as Hd' by (change 0 with (inject_Z 0); rewrite <- Zlt_Qlt; lia).
  apply Qle_shift_div_l; [exact Hd'|].
  assert (inject_Z a / inject_Z b * inject_Z d
          == inject_Z a * inject_Z d / inject_Z b) as -> by (field; lra).
  apply Qle_shift_div_r; [exact Hb'|].
  rewrite <- !inject_Z_mult, <- Zle_Qle. exact H.
Qed.

Lemma Zfrac_lt (a b c d : Z) :
  (0 < b)%Z -> (0 < d)%Z -> (a * d < c * b)%Z ->
  inject_Z a / inject_Z b < inject_Z c / inject_Z d.
Proof.
  intros Hb Hd H.
  assert (0 < inject_Z b) as Hb' by (change 0 with (inject_Z 0); rewrite <- Zlt_Qlt; lia).
  assert (0 < inject_Z d) as Hd' by (change 0 with (inject_Z 0); rewrite <- Zlt_Qlt; lia).
  apply Qlt_shift_div_l; [exact Hd'|].
  assert (inject_Z a / inject_Z b * inject_Z d
          == inject_Z a * inject_Z d / inject_Z b) as -> by (field; lra).
  apply Qlt_shift_div_r; [exact Hb'|].
  rewrite <- !inject_Z_mult, <- Zlt_Qlt. exact H.
Qed.

(** [ilog2] finds the binade of a positive number. *)
Lemma ilog2_spec (x : Q) :
  0 < x -> B64.pow2 (B64.ilog2 x) <= x /\ x < B64.pow2 (B64.ilog2 x + 1).
Proof.
  intros Hx. destruct x as [a b].
  assert (0 < a)%Z as Ha by (unfold Qlt in Hx; simpl in Hx; lia).
  unfold B64.ilog2. cbn [Qnum Qden].
  pose proof (Z.log2_spec a Ha) as [Ha1 Ha2].
  pose proof (Z.log2_spec (Z.pos b) (Pos2Z.is_pos b)) as [Hb1 Hb2].
  pose proof (Z.log2_nonneg a) as Hla.
  pose proof (Z.log2_nonneg (Z.pos b)) as Hlb.
  set (la := Z.log2 a) in *. set (lb := Z.log2 (Z.pos b)) in *.
  assert (0 < 2 ^ la)%Z as HA by (apply Z.pow_pos_nonneg; lia).
  assert (0 < 2 ^ lb)%Z as HB by (apply Z.pow_pos_nonneg; lia).
  assert (forall n m, (0 <= n)%Z -> (0 <= m)%Z ->
            B64.pow2 (n - m) == inject_Z (2 ^ n) / inject_Z (2 ^ m)) as Hpow.
  { intros n m Hn Hm. unfold B64.pow2. rewrite Qpower_minus by discriminate.
    rewrite <- (Zpower_Qpower 2 n Hn), <- (Zpower_Qpower 2 m Hm). reflexivity. }
  assert (a # b < B64.pow2 (la - lb + 1)) as Hup.
  { rewrite (Qmake_Qdiv a b).
    replace (la - lb + 1)%Z with (Z.succ la - lb)%Z by lia.
    rewrite Hpow by lia. apply Zfrac_lt; [lia | lia | nia]. }
  assert (B64.pow2 (la - lb - 1) <= a # b) as Hlo.
  { rewrite (Qmake_Qdiv a b).
    replace (la - lb - 1)%Z with (la - Z.succ lb)%Z by lia.
    rewrite Hpow by lia. apply Zfrac_le; [apply Z.pow_pos_nonneg; lia | lia | nia]. }
  destruct (Qle_bool (B64.pow2 (la - lb)) (a # b)) eqn:E.
  - apply Qle_bool_iff in E. split; assumption.
  - assert (~ B64.pow2 (la - lb) <= a # b) as E'
      by (intros H; apply Qle_bool_iff in H; congruence).
    replace (la - lb - 1 + 1)%Z with (la - lb)%Z by lia.
    split; [exact Hlo | lra].
Qed.

Lemma ilog2_unique (x : Q) (k : Z) :
  B64.pow2 k <= x -> x < B64.pow2 (k + 1) -> B64.ilog2 x = k.
Proof.
  intros Hlo Hhi.
  assert (0 < x) as Hx by (pose proof (pow2_pos k); lra).
  destruct (ilog2_spec x Hx) as [Hlo' Hhi'].
  assert (B64.pow2 k < B64.pow2 (B64.ilog2 x + 1)) as H1 by lra.
  assert (B64.pow2 (B64.ilog2 x) < B64.pow2 (k + 1)) as H2 by lra.
  apply pow2_lt_inv in H1, H2. lia.
Qed.

(** Rounding a number of a known binade that is not subnormal. *)
Lemma fl_binade (x : Q) (k : Z) :
  B64.pow2 k <= x -> x < B64.pow2 (k + 1) -> (-1022 <= k)%Z ->
  B64.fl x == inject_Z (round_half_even (x / B64.pow2 (k - 52))) * B64.pow2 (k - 52).
Proof.
  intros Hlo Hhi Hk.
  assert (0 < x) as Hx by (pose proof (pow2_pos k); lra).
  unfold B64.fl.
  assert (Qeq_bool x 0 = false) as -> by (apply Qeq_bool_false; lra).
  rewrite Qred_correct.
  assert (B64.esponente x = (k - 52)%Z) as ->; [|reflexivity].
  unfold B64.esponente.
  rewrite (ilog2_unique (Qabs x) k); [lia | |]; rewrite Qabs_pos by lra; assumption.
Qed.

(** The rounded quotient of two integers below [2 ** 53] has the
    integer part of the exact quotient. *)
Lemma int_fl_quoziente (q c : Z) :
  (0 < c)%Z -> (c < q)%Z -> (q < 2 ^ 53)%Z ->
  Py.int (B64.fl (inject_Z q / inject_Z c)) = (q / c)%Z.
Proof.
  intros Hc Hq Hb.
  assert (0 < inject_Z c) as Hc' by (change 0 with (inject_Z 0); rewrite <- Zlt_Qlt; lia).
  set (x := inject_Z q / inject_Z c).
  assert (x * inject_Z c == inject_Z q) as Hxc by (unfold x; field; lra).
  assert (1 < x) as Hx1.
  { unfold x. apply Qlt_shift_div_l; [exact Hc'|].
    rewrite Qmult_1_l, <- Zlt_Qlt. exact Hq. }
  destruct (ilog2_spec x) as [Hlo Hhi]; [lra|].
  set (k := B64.ilog2 x) in *.
  assert (0 <= k)%Z as Hk0.
  { assert (B64.pow2 0 < B64.pow2 (k + 1)) as H
      by (change (B64.pow2 0) with 1; lra).
    apply pow2_lt_inv in H. lia. }
  rewrite (pow2_Z k Hk0) in Hlo.
  assert (0 < 2 ^ k)%Z as HK by (apply Z.pow_pos_nonneg; lia).
  assert (2 ^ k * c <= q)%Z as HKc.
  { rewrite Zle_Qle, inject_Z_mult, <- Hxc.
    apply Qmult_le_compat_r; [exact Hlo | lra]. }
  assert (k < 53)%Z as Hk53.
  { apply (Z.pow_lt_mono_r_iff 2); [lia | lia | nia]. }
  set (s := (52 - k)%Z).
  assert (0 <= s)%Z as Hs by (unfold s; lia).
  assert (0 < 2 ^ s)%Z as HS by (apply Z.pow_pos_nonneg; lia).
  assert (2 ^ k * 2 ^ s = 2 ^ 52)%Z as HKS
    by (rewrite <- Z.pow_add_r by lia; f_equal; unfold s; lia).
  assert (c < 2 * 2 ^ s)%Z as Hc2.
  { change (2 ^ 53)%Z with (2 * 2 ^ 52)%Z in Hb. nia. }
  assert (0 < inject_Z (2 ^ s)) as HS'
    by (change 0 with (inject_Z 0); rewrite <- Zlt_Qlt; lia).
  assert (B64.pow2 (k - 52) == / inject_Z (2 ^ s)) as Hp.
  { replace (k - 52)%Z with (- s)%Z by (unfold s; lia). apply pow2_neg, Hs. }
  assert (B64.fl x
          == inject_Z (round_half_even (x * inject_Z (2 ^ s))) / inject_Z (2 ^ s))
    as Hfl.
  { rewrite (fl_binade x k); [| rewrite (pow2_Z k Hk0); exact Hlo | exact Hhi | lia].
    rewrite (round_half_even_comp (x / B64.pow2 (k - 52)) (x * inject_Z (2 ^ s)))
      by (rewrite Hp; field; lra).
    rewrite Hp. reflexivity. }
  set (M := round_half_even (x * inject_Z (2 ^ s))) in *.
  destruct (round_half_even_near (x * inject_Z (2 ^ s))) as [Hn1 Hn2].
  fold M in Hn1, Hn2.
  pose proof (Z.div_mod q c ltac:(lia)) as Hdm.
  pose proof (Z.mod_pos_bound q c Hc) as Hmod.
  set (n := (q / c)%Z) in *.
  assert (2 * c * M - c <= 2 * q * 2 ^ s)%Z as H1.
  { rewrite Zle_Qle, <- Z.add_opp_r, inject_Z_plus, inject_Z_opp, !inject_Z_mult, <- Hxc.
    change (inject_Z 2) with 2. nra. }
  assert (2 * q * 2 ^ s <= 2 * c * M + c)%Z as H2.
  { rewrite Zle_Qle, inject_Z_plus, !inject_Z_mult, <- Hxc.
    change (inject_Z 2) with 2. nra. }
  assert (n * 2 ^ s <= M)%Z as HnM by nia.
  assert (M < (n + 1) * 2 ^ s)%Z as HMn by nia.
  assert (0 <= B64.fl x) as Hpos.
  { rewrite Hfl. apply Qle_shift_div_l; [exact HS'|].
    rewrite Qmult_0_l. change 0 with (inject_Z 0). rewrite <- Zle_Qle. nia. }
  rewrite int_nonneg by exact Hpos.
  rewrite (Qfloor_comp _ _ Hfl), <- Zdiv_Qdiv.
  symmetry. apply (Z.div_unique M (2 ^ s) n (M - n * 2 ^ s)); lia.
Qed.

End Binary64.

(** * Binary64: the methods *)

Section Binary64Methods.

Variable self : B64.Simulatore.

Lemma b64_truediv_ok (a b : B64.num) :
  B64.nullo b = false -> exists x, B64.truediv a b = Ret (B64.Float x).
Proof.
  intros H. unfold B64.truediv. rewrite H.
  destruct a, b; eexists; reflexivity.
Qed.

Lemma b64_mod_ok (a b : B64.num) :
  B64.nullo b = false -> exists r, B64.mod_ a b = Ret r.
Proof.
  intros H. unfold B64.mod_. rewrite H.
  destruct a, b; eexists; reflexivity.
Qed.

Lemma b64_nullo_max (g : Z) : B64.nullo (B64.Int (Z.max g 1)) = false.
Proof.
  unfold B64.nullo, B64.valore. apply Qeq_bool_false.
  intros H. unfold Qeq in H. simpl in H. lia.
Qed.

(** The estimator leaves the instance as it is. *)
Lemma b64_calcola_stato (p : string) (q : B64.num) :
  B64.calcola_tempo_produzione p q self
  = (fst (B64.calcola_tempo_produzione p q self), self).
Proof.
  unfold B64.calcola_tempo_produzione, mbind, B64.M_bind, B64.get, B64.getitem,
    B64.lift, mret, B64.M_ret.
  destruct (B64.prodotti self !! p) as [info|]; [|reflexivity].
  destruct (B64.truediv q (B64.capacita_giornaliera info)); [|reflexivity].
  destruct (B64.gt q (B64.capacita_giornaliera info)); [|reflexivity].
  destruct (B64.mod_ q (B64.capacita_giornaliera info)); reflexivity.
Qed.

Lemma b64_calcola_assente (p : string) (q : B64.num) :
  B64.prodotti self !! p = None ->
  B64.calcola_tempo_produzione p q self = (Raise (KeyError p), self).
Proof.
  intros H.
  unfold B64.calcola_tempo_produzione, mbind, B64.M_bind, B64.get, B64.getitem,
    B64.lift.
  rewrite H. reflexivity.
Qed.

Lemma b64_calcola_zero (p : string) (info : B64.Prodotto) (q : B64.num) :
  B64.prodotti self !! p = Some info ->
  B64.nullo (B64.capacita_giornaliera info) = true ->
  B64.calcola_tempo_produzione p q self = (Raise ZeroDivisionError, self).
Proof.
  intros H Hz.
  unfold B64.calcola_tempo_produzione, mbind, B64.M_bind, B64.get, B64.getitem,
    B64.lift, mret, B64.M_ret.
  rewrite H. unfold B64.truediv. rewrite Hz. reflexivity.
Qed.

(** The estimate of a catalog entry of non-zero capacity. *)
Lemma b64_calcola_ok (p : string) (info : B64.Prodotto) (q : B64.num) :
  B64.prodotti self !! p = Some info ->
  B64.nullo (B64.capacita_giornaliera info) = false ->
  exists d r g,
    B64.truediv q (B64.capacita_giornaliera info) = Ret d /\
    B64.mod_ q (B64.capacita_giornaliera info) = Ret r /\
    g = (if B64.gt q (B64.capacita_giornaliera info)
         then (B64.int d + (if B64.gt r (B64.Int 0) then 1 else 0))%Z
         else 1%Z) /\
    B64.calcola_tempo_produzione p q self
    = (Ret {| B64.Stima.prodotto := B64.nome info;
              B64.Stima.quantita := q;
              B64.Stima.tempo_lavorazione_ore :=
                B64.round2 (B64.mul q (B64.tempo_per_kg info));
              B64.Stima.tempo_lavorazione_giorni := B64.round2 d;
              B64.Stima.giorni_effettivi := g;
              B64.Stima.tempo_totale_ore := (g * 8)%Z |}, self).
Proof.
  intros H Hz.
  destruct (b64_truediv_ok q _ Hz) as [x Hd].
  destruct (b64_mod_ok q _ Hz) as [r Hr].
  exists (B64.Float x), r. eexists. split; [exact Hd|]. split; [exact Hr|].
  split; [reflexivity|].
  unfold B64.calcola_tempo_produzione, mbind, B64.M_bind, B64.get, B64.getitem,
    B64.lift, mret, B64.M_ret.
  rewrite H, Hd.
  destruct (B64.gt q (B64.capacita_giornaliera info)); [|reflexivity].
  rewrite Hr. reflexivity.
Qed.

(** The loop of the aggregator: the state is left as it is, the new
    estimates are those of the members that have a quantity, in
    order, and the two totals are folded over them. *)
Lemma b64_ciclo_inv (membri : list string) :
  forall ris ore g ris' ore' g' self',
    B64.ciclo_prodotti membri (ris, ore, g) self = (Ret (ris', ore', g'), self') ->
    self' = self /\
    exists nuovi,
      ris' = ris ++ nuovi /\
      ore' = foldl B64.add ore (B64.Stima.tempo_lavorazione_ore <$> nuovi) /\
      g' = foldl Z.max g (B64.Stima.giorni_effettivi <$> nuovi) /\
      Forall2 (fun p r =>
                 exists q, assoc p (B64.quantita_produzione self) = Some q /\
                           B64.calcola_tempo_produzione p q self = (Ret r, self))
        (B64.risolti self membri) nuovi.
Proof.
  induction membri as [|p l IH]; intros ris ore g ris' ore' g' self' H.
  - injection H as <- <- <- <-. split; [reflexivity|]. exists [].
    rewrite app_nil_r. repeat split. constructor.
  - cbn [B64.ciclo_prodotti] in H. unfold mbind, B64.M_bind, B64.get in H.
    unfold B64.risolti. rewrite filter_cons. fold (B64.risolti self l).
    destruct (assoc p (B64.quantita_produzione self)) as [q|] eqn:Hq.
    + rewrite decide_True by eauto.
      rewrite b64_calcola_stato in H.
      destruct (fst (B64.calcola_tempo_produzione p q self)) as [r|e] eqn:Er;
        [|discriminate].
      fold (@mbind B64.M _) in H.
      apply IH in H as (-> & nuovi & -> & -> & -> & Hall).
      split; [reflexivity|]. exists (r :: nuovi).
      rewrite <- app_assoc. repeat split.
      constructor; [|exact Hall].
      exists q. split; [exact Hq|]. rewrite b64_calcola_stato, Er. reflexivity.
    + rewrite decide_False by (intros [? ?]; discriminate).
      apply IH in H. exact H.
Qed.

(** What a returned sequence report is made of. *)
Lemma b64_simula_inv (nome : string) (r : B64.Sequenza.t) (self' : B64.Simulatore) :
  B64.simula_sequenza_produttiva nome self = (Ret (Some r), self') ->
  self' = self /\
  exists membri media,
    assoc nome (B64.sequenze self) = Some membri /\
    Forall2 (fun p s =>
               exists q, assoc p (B64.quantita_produzione self) = Some q /\
                         B64.calcola_tempo_produzione p q self = (Ret s, self))
      (B64.risolti self membri) (B64.Sequenza.dettagli_prodotti r) /\
    B64.Sequenza.sequenza r = nome /\
    B64.Sequenza.tempo_totale_ore r
    = B64.round2 (B64.somma (B64.Stima.tempo_lavorazione_ore
                               <$> B64.Sequenza.dettagli_prodotti r)) /\
    B64.Sequenza.giorni_totali r
    = foldl Z.max 0%Z (B64.Stima.giorni_effettivi <$> B64.Sequenza.dettagli_prodotti r) /\
    B64.truediv (B64.somma (B64.Stima.tempo_lavorazione_ore
                              <$> B64.Sequenza.dettagli_prodotti r))
      (B64.Int (Z.max (B64.Sequenza.giorni_totali r) 1)) = Ret media /\
    B64.Sequenza.ore_medie_giorno r = B64.round2 media.
Proof.
  unfold B64.simula_sequenza_produttiva, mbind, B64.M_bind, B64.get. intros H.
  destruct (assoc nome (B64.sequenze self)) as [membri|] eqn:Ha; [|discriminate].
  destruct (B64.ciclo_prodotti membri ([], B64.Int 0, 0%Z) self)
    as [[[[ris ore] g]|e] s1] eqn:Ec; [|discriminate].
  apply b64_ciclo_inv in Ec as (-> & nuovi & -> & -> & -> & Hall).
  unfold B64.lift in H.
  destruct (b64_truediv_ok
              (foldl B64.add (B64.Int 0) (B64.Stima.tempo_lavorazione_ore <$> nuovi))
              _ (b64_nullo_max (foldl Z.max 0%Z (B64.Stima.giorni_effettivi <$> nuovi))))
    as [x Hx].
  rewrite Hx in H. injection H as <- <-.
  split; [reflexivity|]. exists membri, (B64.Float x).
  cbn [B64.Sequenza.dettagli_prodotti B64.Sequenza.sequenza
         B64.Sequenza.tempo_totale_ore B64.Sequenza.giorni_totali
         B64.Sequenza.ore_medie_giorno app].
  repeat split; try assumption; reflexivity.
Qed.

End Binary64Methods.

(** * Binary64: the day count of the estimator *)

Section Binary64Days.

Variables (self : B64.Simulatore) (p : string) (info : B64.Prodotto).
Hypothesis in_catalog : B64.prodotti self !! p = Some info.

Lemma gt_comp (x x' y y' : Q) : x == x' -> y == y' -> gt x y = gt x' y'.
Proof.
  intros Hx Hy. destruct (gt x' y') eqn:E.
  - apply gt_true. apply gt_true in E. lra.
  - apply gt_false. apply gt_false in E. lra.
Qed.

Lemma b64_nullo_pos (c : Z) : (0 < c)%Z -> B64.nullo (B64.Int c) = false.
Proof.
  intros H. unfold B64.nullo, B64.valore. apply Qeq_bool_false.
  intros E. unfold Qeq in E. simpl in E. lia.
Qed.

(** On two Python integers, the second positive and the first below
    [2 ** 53], the day count of the code is the one of exact
    arithmetic. *)
Lemma b64_giorni_interi (c k : Z) :
  (0 < c)%Z -> (0 <= k < 2 ^ 53)%Z ->
  (if B64.gt (B64.Int k) (B64.Int c)
   then (B64.int (B64.Float (B64.fl (inject_Z k / inject_Z c)))
         + (if B64.gt (B64.Int (k mod c)) (B64.Int 0) then 1 else 0))%Z
   else 1%Z)
  = giorni_di (inject_Z k) (inject_Z c).
Proof.
  intros Hc Hk. unfold giorni_di, B64.gt, B64.valore, B64.int.
  destruct (gt (inject_Z k) (inject_Z c)) eqn:E; [|reflexivity].
  apply gt_true in E. rewrite <- Zlt_Qlt in E.
  assert (0 < inject_Z c) as Hc' by (change 0 with (inject_Z 0); rewrite <- Zlt_Qlt; lia).
  rewrite (int_fl_quoziente k c) by lia.
  assert (0 <= inject_Z k / inject_Z c) as Hpos.
  { apply Qle_shift_div_l; [exact Hc'|]. rewrite Qmult_0_l.
    change 0 with (inject_Z 0). rewrite <- Zle_Qle. lia. }
  rewrite (int_nonneg _ Hpos), <- Zdiv_Qdiv.
  f_equal.
  rewrite (gt_comp (inject_Z (k mod c)) (inject_Z k - inject_Z c * inject_Z (k / c))
             (inject_Z 0) 0); [reflexivity| |reflexivity].
  rewrite Z.mod_eq by lia.
  rewrite <- Z.add_opp_r, inject_Z_plus, inject_Z_opp, inject_Z_mult. ring.
Qed.

Lemma b64_calcola_interi (c k : Z) :
  B64.capacita_giornaliera info = B64.Int c ->
  (0 < c)%Z -> (0 <= k < 2 ^ 53)%Z ->
  exists r,
    B64.calcola_tempo_produzione p (B64.Int k) self = (Ret r, self) /\
    B64.Stima.giorni_effettivi r = giorni_di (inject_Z k) (inject_Z c).
Proof.
  intros Hcap Hc Hk.
  destruct (b64_calcola_ok self p info (B64.Int k) in_catalog)
    as (d & r & g & Hd & Hr & Hg & E).
  { rewrite Hcap. apply b64_nullo_pos, Hc. }
  eexists. split; [exact E|]. cbn [B64.Stima.giorni_effettivi].
  rewrite Hcap in Hd, Hr, Hg.
  unfold B64.truediv in Hd. unfold B64.mod_ in Hr.
  rewrite (b64_nullo_pos c Hc) in Hd, Hr.
  injection Hd as <-. injection Hr as <-.
  rewrite Hg. apply b64_giorni_interi; assumption.
Qed.


End Binary64Days.



(** * Binary64: the total hours of a sequence *)

Section Binary64Error.

(** The relative error of rounding to a double, outside the
    subnormal range. *)
Lemma fl_error_normal (x : Q) :
  B64.pow2 (-1022) <= Qabs x ->
  Qabs (B64.fl x - x) <= Qabs x * B64.pow2 (-53).
Proof.
  intros Hx.
  pose proof (pow2_pos (-1022)) as Hp.
  destruct (ilog2_spec (Qabs x)) as [Hlo Hhi]; [lra|].
  set (k := B64.ilog2 (Qabs x)) in *.
  assert (-1022 <= k)%Z as Hk.
  { assert (B64.pow2 (-1022) < B64.pow2 (k + 1)) as H by lra.
    apply pow2_lt_inv in H. lia. }
  assert (~ x == 0) as Hx0.
  { intros E. rewrite E in Hx. change (Qabs 0) with 0 in Hx. lra. }
  assert (B64.esponente x = (k - 52)%Z) as He
    by (unfold B64.esponente; fold k; lia).
  assert (B64.fl x
          == inject_Z (round_half_even (x / B64.pow2 (k - 52))) * B64.pow2 (k - 52))
    as Hfl.
  { unfold B64.fl.
    assert (Qeq_bool x 0 = false) as -> by (apply Qeq_bool_false; exact Hx0).
    rewrite Qred_correct, He. reflexivity. }
  pose proof (pow2_pos (k - 52)) as HP.
  assert (B64.pow2 (k - 52) * (1 # 2) == B64.pow2 k * B64.pow2 (-53)) as HPk.
  { replace (k - 52)%Z with (k + -52)%Z by lia.
    unfold B64.pow2. rewrite Qpower_plus by discriminate.
    rewrite <- Qmult_assoc. apply Qmult_comp; [reflexivity|]. reflexivity. }
  destruct (round_half_even_near (x / B64.pow2 (k - 52))) as [Hn1 Hn2].
  set (M := inject_Z (round_half_even (x / B64.pow2 (k - 52)))) in *.
  assert (x / B64.pow2 (k - 52) * B64.pow2 (k - 52) == x) as Hy by (field; lra).
  set (y := x / B64.pow2 (k - 52)) in *.
  set (P := B64.pow2 (k - 52)) in *.
  pose proof (pow2_pos (-53)) as H53.
  set (c := B64.pow2 (-53)) in *.
  set (K := B64.pow2 k) in *.
  set (A := Qabs x) in *.
  apply Qabs_Qle_condition. rewrite Hfl, <- Hy.
  assert (K * c <= A * c) as HKA by nra.
  split; nra.
Qed.

End Binary64Error.

Section Binary64Total.

Variable self : B64.Simulatore.

Lemma round2_piccolo (x : Q) :
  ~ round2 x == 0 -> B64.pow2 (-1022) <= Qabs (round2 x).
Proof.
  unfold round2. set (n := round_half_even (x * 100)). intros H.
  assert (n <> 0%Z) as Hn by (intros E; apply H; rewrite E; reflexivity).
  apply Qle_trans with (1 # 100); [vm_compute; discriminate|].
  unfold Qabs, Qle. simpl. lia.
Qed.

Lemma b64_round2_near (a : B64.num) :
  Qabs (B64.valore (B64.round2 a) - B64.valore a)
  <= (1 # 200) + (Qabs (B64.valore a) + (1 # 200)) * B64.pow2 (-53).
Proof.
  pose proof (pow2_pos (-53)) as H53.
  destruct a as [z|x]; cbn [B64.round2 B64.valore].
  - assert (inject_Z z - inject_Z z == 0) as -> by ring.
    change (Qabs 0) with 0.
    pose proof (Qabs_nonneg (inject_Z z)). nra.
  - pose proof (round2_near x) as Hr.
    pose proof (Qabs_nonneg x) as Hx.
    destruct (Qeq_dec (round2 x) 0) as [E|E].
    + assert (B64.fl (round2 x) = 0) as ->.
      { unfold B64.fl. rewrite (proj2 (Qeq_bool_iff _ _) E). reflexivity. }
      rewrite E in Hr. nra.
    + pose proof (fl_error_normal _ (round2_piccolo x E)) as Hf.
      pose proof (Qabs_triangle (B64.fl (round2 x) - round2 x) (round2 x - x)) as Ht.
      assert (B64.fl (round2 x) - round2 x + (round2 x - x)
              == B64.fl (round2 x) - x) as Es by ring.
      rewrite Es in Ht.
      pose proof (Qabs_triangle (round2 x - x) x) as Ht2.
      assert (round2 x - x + x == round2 x) as Es2 by ring.
      rewrite Es2 in Ht2.
      set (d1 := Qabs (B64.fl (round2 x) - x)) in *.
      set (d2 := Qabs (B64.fl (round2 x) - round2 x)) in *.
      set (d3 := Qabs (round2 x - x)) in *.
      set (ay := Qabs (round2 x)) in *.
      set (ax := Qabs x) in *.
      set (c := B64.pow2 (-53)) in *.
      nra.
Qed.

(** C7, amended. The [tempo_totale_ore] of a sequence report is the
    sum of its members' [tempo_lavorazione_ore], added as [float]s in
    the order of the sequence, rounded to two decimals; so it is
    within 0.005 and one rounding of a double of that sum. *)
Theorem C7_tempo_totale_ore_arrotondato
    (nome : string) (r : B64.Sequenza.t) (self' : B64.Simulatore) :
  B64.simula_sequenza_produttiva nome self = (Ret (Some r), self') ->
  let s := B64.somma (B64.Stima.tempo_lavorazione_ore
                        <$> B64.Sequenza.dettagli_prodotti r) in
  B64.Sequenza.tempo_totale_ore r = B64.round2 s /\
  Qabs (B64.valore (B64.Sequenza.tempo_totale_ore r) - B64.valore s)
  <= (1 # 200) + (Qabs (B64.valore s) + (1 # 200)) * B64.pow2 (-53).
Proof.
  intros H s.
  apply b64_simula_inv in H as (_ & membri & media & _ & _ & _ & Ht & _).
  fold s in Ht. split; [exact Ht|]. rewrite Ht. apply b64_round2_near.
Qed.

End Binary64Total.

Lemma C7_tempo_totale_ore_arrotondato_witness :
  let self := B64.con_quantita B64.init
                [("salumi"%string, B64.Int 201); ("formaggi"%string, B64.Int 81)] in
  exists r,
    B64.simula_sequenza_produttiva "sequenza_trasformazione" self = (Ret (Some r), self) /\
    let s := B64.somma (B64.Stima.tempo_lavorazione_ore
                          <$> B64.Sequenza.dettagli_prodotti r) in
    B64.Sequenza.tempo_totale_ore r = B64.round2 s /\
    Qabs (B64.valore (B64.Sequenza.tempo_totale_ore r) - B64.valore s)
    <= (1 # 200) + (Qabs (B64.valore s) + (1 # 200)) * B64.pow2 (-53).
Proof.
  intros self. eexists. split; [vm_compute; reflexivity|].
  apply (C7_tempo_totale_ore_arrotondato self "sequenza_trasformazione" _ self).
  vm_compute. reflexivity.
Defined.

(** C7, as stated, fails on large quantities: with the catalog of
    [__init__], 60000003 kg of ["carne_bovina"] and 1 kg of
    ["carne_suina"], the members' hours are the doubles nearest to
    9000000.45 and 0.12; their [float] sum is 9000000.569999998..,
    and so is about their exact sum, while the reported total is the
    double nearest to 9000000.57: the difference exceeds 1e-9. *)
Lemma C7_counterexample :
  let self := B64.con_quantita B64.init
                [("carne_bovina"%string, B64.Int 60000003);
                 ("carne_suina"%string, B64.Int 1)] in
  exists r,
    B64.simula_sequenza_produttiva "sequenza_macellazione" self = (Ret (Some r), self) /\
    let ore := B64.Stima.tempo_lavorazione_ore <$> B64.Sequenza.dettagli_prodotti r in
    length ore = 2%nat /\
    (1 # 1000000000)
    < Qabs (B64.valore (B64.Sequenza.tempo_totale_ore r) - B64.valore (B64.somma ore)) /\
    (1 # 1000000000)
    < Qabs (B64.valore (B64.Sequenza.tempo_totale_ore r)
            - foldr Qplus 0 (B64.valore <$> ore)).
Proof.
  intros self. eexists. split; [vm_compute; reflexivity|].
  cbv zeta. repeat split; vm_compute; reflexivity.
Qed.

(** * Binary64: the daily averages *)

Section Binary64Averages.

Variable self : B64.Simulatore.







End Binary64Averages.


(** * Binary64: the configuration setters *)

Section Binary64Configuration.

Variables (self : B64.Simulatore) (p : string) (info : B64.Prodotto).
Hypothesis in_catalog : B64.prodotti self !! p = Some info.

Lemma b64_calcola_altro (d : gmap string B64.Prodotto) (p' : string) (q : B64.num) :
  d !! p' = B64.prodotti self !! p' ->
  fst (B64.calcola_tempo_produzione p' q (B64.con_prodotti self d))
  = fst (B64.calcola_tempo_produzione p' q self).
Proof.
  intros H.
  unfold B64.calcola_tempo_produzione, mbind, B64.M_bind, B64.get, B64.getitem,
    B64.lift, mret, B64.M_ret.
  cbn [B64.con_prodotti B64.prodotti]. rewrite H.
  destruct (B64.prodotti self !! p') as [i|]; [|reflexivity].
  destruct (B64.truediv q (B64.capacita_giornaliera i)); [|reflexivity].
  destruct (B64.gt q (B64.capacita_giornaliera i)); [|reflexivity].
  destruct (B64.mod_ q (B64.capacita_giornaliera i)); reflexivity.
Qed.

(** C9. For a key of the catalog, [configura_tempo_produzione] and
    [configura_capacita_giornaliera] return after replacing, in the
    entry of that key, only [tempo_per_kg], respectively only
    [capacita_giornaliera]: the other fields of the entry, the other
    entries, the sequences, the quantities and the overall capacity
    are as before, and so are the estimates of the other products.
    The next estimates of the product use the new value: after a new
    rate the hours are [round(quantita * rate, 2)] and the day fields
    are as before; after a new capacity an estimate fails with
    [ZeroDivisionError] when it is zero, and otherwise the day ratio
    is [round(quantita / capacity, 2)], the hours are as before, the
    day count is 1 unless the quantity exceeds the capacity and, on
    integers, the ceiling of quantity / capacity when it does. *)
Theorem C9_configura (t c : B64.num) :
  (exists self',
      B64.configura_tempo_produzione p t self = (Ret tt, self') /\
      (exists info',
          B64.prodotti self' !! p = Some info' /\
          B64.tempo_per_kg info' = t /\
          B64.nome info' = B64.nome info /\
          B64.capacita_giornaliera info' = B64.capacita_giornaliera info /\
          B64.unita_misura info' = B64.unita_misura info) /\
      (forall p', p' <> p -> B64.prodotti self' !! p' = B64.prodotti self !! p') /\
      B64.sequenze self' = B64.sequenze self /\
      B64.quantita_produzione self' = B64.quantita_produzione self /\
      B64.capacita_complessiva self' = B64.capacita_complessiva self /\
      (forall p' q, p' <> p ->
         fst (B64.calcola_tempo_produzione p' q self')
         = fst (B64.calcola_tempo_produzione p' q self)) /\
      (forall q, B64.nullo (B64.capacita_giornaliera info) = false ->
         exists r r0,
           B64.calcola_tempo_produzione p q self' = (Ret r, self') /\
           B64.calcola_tempo_produzione p q self = (Ret r0, self) /\
           B64.Stima.tempo_lavorazione_ore r = B64.round2 (B64.mul q t) /\
           B64.Stima.tempo_lavorazione_giorni r = B64.Stima.tempo_lavorazione_giorni r0 /\
           B64.Stima.giorni_effettivi r = B64.Stima.giorni_effettivi r0)) /\
  (exists self',
      B64.configura_capacita_giornaliera p c self = (Ret tt, self') /\
      (exists info',
          B64.prodotti self' !! p = Some info' /\
          B64.capacita_giornaliera info' = c /\
          B64.nome info' = B64.nome info /\
          B64.tempo_per_kg info' = B64.tempo_per_kg info /\
          B64.unita_misura info' = B64.unita_misura info) /\
      (forall p', p' <> p -> B64.prodotti self' !! p' = B64.prodotti self !! p') /\
      B64.sequenze self' = B64.sequenze self /\
      B64.quantita_produzione self' = B64.quantita_produzione self /\
      B64.capacita_complessiva self' = B64.capacita_complessiva self /\
      (forall p' q, p' <> p ->
         fst (B64.calcola_tempo_produzione p' q self')
         = fst (B64.calcola_tempo_produzione p' q self)) /\
      (B64.nullo c = true ->
       forall q, B64.calcola_tempo_produzione p q self' = (Raise ZeroDivisionError, self')) /\
      (forall q, B64.nullo c = false ->
         exists r d,
           B64.calcola_tempo_produzione p q self' = (Ret r, self') /\
           B64.truediv q c = Ret d /\
           B64.Stima.tempo_lavorazione_giorni r = B64.round2 d /\
           B64.Stima.tempo_lavorazione_ore r
           = B64.round2 (B64.mul q (B64.tempo_per_kg info)) /\
           (B64.gt q c = false -> B64.Stima.giorni_effettivi r = 1%Z) /\
           (forall z k : Z,
              c = B64.Int z -> q = B64.Int k ->
              (0 < z)%Z -> (z < k < 2 ^ 53)%Z ->
              B64.Stima.giorni_effettivi r = Qceiling (inject_Z k / inject_Z z)))).
Proof.
  split.
  - unfold B64.configura_tempo_produzione, mbind, B64.M_bind, B64.get, B64.put.
    rewrite in_catalog. eexists. split; [reflexivity|].
    cbn [B64.con_prodotti B64.prodotti B64.sequenze B64.quantita_produzione
           B64.capacita_complessiva].
    split; [|split; [|split; [|split; [|split; [|split]]]]]; try reflexivity.
    + eexists. split; [apply lookup_insert_eq|]. repeat split.
    + intros p' Hp. apply lookup_insert_ne. congruence.
    + intros p' q Hp. apply b64_calcola_altro, lookup_insert_ne. congruence.
    + intros q Hz.
      destruct (b64_calcola_ok self p info q in_catalog Hz)
        as (d0 & m0 & g0 & Hd0 & Hm0 & Hg0 & E0).
      destruct (b64_calcola_ok
                  (B64.con_prodotti self
                     (<[p := B64.con_tempo_per_kg info t]> (B64.prodotti self)))
                  p (B64.con_tempo_per_kg info t) q (lookup_insert_eq _ _ _) Hz)
        as (d & m & g & Hd & Hm & Hg & E).
      cbn [B64.con_tempo_per_kg B64.capacita_giornaliera B64.tempo_per_kg B64.nome]
        in Hd, Hm, Hg, E.
      rewrite Hd0 in Hd. injection Hd as <-.
      rewrite Hm0 in Hm. injection Hm as <-.
      eexists _, _. split; [exact E|]. split; [exact E0|].
      cbn [B64.Stima.tempo_lavorazione_ore B64.Stima.tempo_lavorazione_giorni
             B64.Stima.giorni_effettivi].
      repeat split. congruence.
  - unfold B64.configura_capacita_giornaliera, mbind, B64.M_bind, B64.get, B64.put.
    rewrite in_catalog. eexists. split; [reflexivity|].
    cbn [B64.con_prodotti B64.prodotti B64.sequenze B64.quantita_produzione
           B64.capacita_complessiva].
    split; [|split; [|split; [|split; [|split; [|split; [|split]]]]]];
      try reflexivity.
    + eexists. split; [apply lookup_insert_eq|]. repeat split.
    + intros p' Hp. apply lookup_insert_ne. congruence.
    + intros p' q Hp. apply b64_calcola_altro, lookup_insert_ne. congruence.
    + intros Hz q.
      apply (b64_calcola_zero _ p (B64.con_capacita_giornaliera info c));
        [apply lookup_insert_eq | exact Hz].
    + intros q Hz.
      set (self' := B64.con_prodotti self
                      (<[p := B64.con_capacita_giornaliera info c]> (B64.prodotti self))).
      assert (B64.prodotti self' !! p = Some (B64.con_capacita_giornaliera info c))
        as Hin by apply lookup_insert_eq.
      destruct (b64_calcola_ok self' p _ q Hin Hz) as (d & m & g & Hd & Hm & Hg & E).
      cbn [B64.con_capacita_giornaliera B64.capacita_giornaliera B64.tempo_per_kg
             B64.nome] in Hd, Hm, Hg, E.
      eexists _, d. split; [exact E|]. split; [exact Hd|].
      cbn [B64.Stima.tempo_lavorazione_ore B64.Stima.tempo_lavorazione_giorni
             B64.Stima.giorni_effettivi].
      split; [reflexivity|]. split; [reflexivity|]. split.
      * intros Hgt. rewrite Hg, Hgt. reflexivity.
      * intros z k -> -> Hz0 Hk.
        destruct (b64_calcola_interi self' p _ Hin z k eq_refl Hz0 ltac:(lia))
          as (r' & E' & Hg').
        rewrite E in E'. injection E' as <-.
        cbn [B64.Stima.giorni_effettivi] in Hg'. rewrite Hg'.
        apply giorni_di_beyond.
        -- change 0 with (inject_Z 0). rewrite <- Zlt_Qlt. lia.
        -- rewrite <- Zlt_Qlt. lia.
Qed.

End Binary64Configuration.

Lemma C9_configura_witness :
  (exists self',
      B64.configura_tempo_produzione "carne_bovina" (B64.lit 0.175) B64.init
      = (Ret tt, self') /\
      B64.prodotti self' !! "salumi" = B64.prodotti B64.init !! "salumi" /\
      B64.sequenze self' = B64.sequenze B64.init /\
      B64.quantita_produzione self' = B64.quantita_produzione B64.init /\
      exists r,
        B64.calcola_tempo_produzione "carne_bovina" (B64.Int 1) self' = (Ret r, self') /\
        B64.Stima.tempo_lavorazione_ore r
        = B64.round2 (B64.mul (B64.Int 1) (B64.lit 0.175)) /\
        B64.round2 (B64.mul (B64.Int 1) (B64.lit 0.175)) = B64.lit 0.17) /\
  (exists self',
      B64.configura_capacita_giornaliera "carne_bovina" (B64.Int 400) B64.init
      = (Ret tt, self') /\
      B64.prodotti self' !! "salumi" = B64.prodotti B64.init !! "salumi" /\
      B64.sequenze self' = B64.sequenze B64.init /\
      B64.quantita_produzione self' = B64.quantita_produzione B64.init /\
      (exists r,
          B64.calcola_tempo_produzione "carne_bovina" (B64.Int 90) self' = (Ret r, self') /\
          B64.Stima.tempo_lavorazione_giorni r = B64.lit 0.23 /\
          B64.Stima.giorni_effettivi r = 1%Z) /\
      exists r,
        B64.calcola_tempo_produzione "carne_bovina" (B64.Int 1000) self' = (Ret r, self') /\
        B64.Stima.giorni_effettivi r = Qceiling (inject_Z 1000 / inject_Z 400)).
Proof.
  destruct (C9_configura B64.init "carne_bovina"
              {| B64.nome := "Carne Bovina"; B64.tempo_per_kg := B64.lit 0.15;
                 B64.capacita_giornaliera := B64.Int 500; B64.unita_misura := "kg" |}
              eq_refl (B64.lit 0.175) (B64.Int 400))
    as [(s1 & E1 & _ & F1 & Hs1 & Hq1 & _ & _ & U1)
        (s2 & E2 & _ & F2 & Hs2 & Hq2 & _ & _ & _ & U2)].
  split.
  - exists s1. repeat split; try assumption.
    + apply F1. discriminate.
    + destruct (U1 (B64.Int 1) eq_refl) as (r & r0 & Er & _ & Ho & _).
      exists r. repeat split; assumption || (vm_compute; reflexivity).
  - exists s2. repeat split; try assumption.
    + apply F2. discriminate.
    + destruct (U2 (B64.Int 90) eq_refl) as (r & d & Er & Hd & Hg & _ & H1 & _).
      exists r. split; [exact Er|]. split.
      * rewrite Hg. vm_compute in Hd. injection Hd as <-. vm_compute. reflexivity.
      * apply H1. reflexivity.
    + destruct (U2 (B64.Int 1000) eq_refl) as (r & d & Er & _ & _ & _ & _ & Hc).
      exists r. split; [exact Er|].
      apply (Hc 400%Z 1000%Z); reflexivity || lia.
Defined.

(** * Binary64: days that suffice *)

Section Binary64Horizon.

Variable self : B64.Simulatore.

Lemma foldl_max_entro (d : Z) (l : list Z) :
  Forall (fun g => (g <= d)%Z) l ->
  forall a, (a <= d)%Z -> (foldl Z.max a l <= d)%Z.
Proof.
  induction 1 as [|x l Hx _ IH]; intros a Ha; simpl; [exact Ha|].
  apply IH. lia.
Qed.

(** X3. For a catalog entry whose capacity is a positive Python
    integer and an integer quantity from 0 to below [2 ** 53], the
    effective days are enough to produce the quantity at full daily
    capacity, and no smaller positive number of days is. *)
Theorem X3_giorni_bastano_e_minimi (p : string) (info : B64.Prodotto) (c q : Z) :
  B64.prodotti self !! p = Some info ->
  B64.capacita_giornaliera info = B64.Int c ->
  (0 < c)%Z -> (0 <= q < 2 ^ 53)%Z ->
  exists r,
    B64.calcola_tempo_produzione p (B64.Int q) self = (Ret r, self) /\
    (q <= B64.Stima.giorni_effettivi r * c)%Z /\
    forall d : Z,
      (1 <= d)%Z -> (q <= d * c)%Z -> (B64.Stima.giorni_effettivi r <= d)%Z.
Proof.
  intros Hin Hcap Hc Hq.
  destruct (b64_calcola_interi self p info Hin c q Hcap Hc Hq) as (r & E & Hg).
  assert (0 < inject_Z c) as Hc' by (change 0 with (inject_Z 0); rewrite <- Zlt_Qlt; lia).
  exists r. split; [exact E|]. rewrite Hg. split.
  - rewrite Zle_Qle, inject_Z_mult. apply giorni_di_bastano, Hc'.
  - intros d Hd H. apply giorni_di_minimi; [exact Hc' | exact Hd |].
    rewrite <- inject_Z_mult, <- Zle_Qle. exact H.
Qed.

(** X20. If, for some [d >= 1], every member of a sequence that has a
    quantity and a catalog entry has them as Python integers, the
    capacity positive and the quantity, from 0 to below [2 ** 53], of
    at most [d] days of that capacity, then every report returned for
    the sequence has [giorni_totali] at most [d]. *)
Theorem X20_giorni_totali_entro (nome : string) (membri : list string) (d : Z)
    (r : B64.Sequenza.t) (self' : B64.Simulatore) :
  assoc nome (B64.sequenze self) = Some membri ->
  (1 <= d)%Z ->
  forallb (B64.entro self d) membri = true ->
  B64.simula_sequenza_produttiva nome self = (Ret (Some r), self') ->
  (B64.Sequenza.giorni_totali r <= d)%Z.
Proof.
  intros Ha Hd He H.
  apply b64_simula_inv in H as (_ & membri' & media & Ha' & Hall & _ & _ & -> & _).
  assert (membri' = membri) as -> by congruence.
  apply foldl_max_entro; [|lia].
  apply Forall_fmap.
  apply (Forall2_Forall_r _ _ _ _ Hall).
  apply Forall_forall. intros p Hp s (q & Hq & E).
  apply list_elem_of_filter in Hp as [_ Hp].
  rewrite forallb_forall in He.
  specialize (He p (proj1 (list_elem_of_In _ _) Hp)).
  unfold B64.entro in He. rewrite Hq in He.
  destruct (B64.prodotti self !! p) as [info|] eqn:Hi.
  - destruct q as [k|x]; [|discriminate].
    destruct (B64.capacita_giornaliera info) as [c|y] eqn:Hcap; [|discriminate].
    apply andb_true_iff in He as [He H4]. apply andb_true_iff in He as [He H3].
    apply andb_true_iff in He as [H1 H2].
    apply Z.ltb_lt in H1, H3. apply Z.leb_le in H2, H4.
    destruct (b64_calcola_interi self p info Hi c k Hcap H1 ltac:(lia))
      as (s' & E' & Hg).
    rewrite E in E'. injection E' as <-.
    simpl. rewrite Hg.
    apply giorni_di_minimi; [|exact Hd|].
    + change 0 with (inject_Z 0). rewrite <- Zlt_Qlt. exact H1.
    + rewrite <- inject_Z_mult, <- Zle_Qle. exact H4.
  - rewrite (b64_calcola_assente self p q Hi) in E. discriminate.
Qed.

End Binary64Horizon.

Lemma X3_giorni_bastano_e_minimi_witness :
  exists r,
    B64.calcola_tempo_produzione "formaggi" (B64.Int 301) B64.init = (Ret r, B64.init) /\
    (301 <= B64.Stima.giorni_effettivi r * 150)%Z /\
    forall d : Z,
      (1 <= d)%Z -> (301 <= d * 150)%Z -> (B64.Stima.giorni_effettivi r <= d)%Z.
Proof.
  apply (X3_giorni_bastano_e_minimi B64.init "formaggi"
           {| B64.nome := "Formaggi"; B64.tempo_per_kg := B64.lit 0.20;
              B64.capacita_giornaliera := B64.Int 150; B64.unita_misura := "kg" |}
           150 301 eq_refl eq_refl); lia.
Defined.

Lemma X20_giorni_totali_entro_witness :
  let self := B64.con_quantita B64.init
                [("salumi"%string, B64.Int 401); ("formaggi"%string, B64.Int 120)] in
  exists r,
    B64.simula_sequenza_produttiva "sequenza_trasformazione" self = (Ret (Some r), self) /\
    (B64.Sequenza.giorni_totali r <= 3)%Z.
Proof.
  intros self. eexists. split; [vm_compute; reflexivity|].
  apply (X20_giorni_totali_entro self "sequenza_trasformazione"
           ["salumi"; "formaggi"]%string 3 _ self eq_refl);
    [lia | reflexivity | vm_compute; reflexivity].
Defined.

(** ** The facility report, functionally *)

Section MethodsMore.

Variable self : Simulatore.

Lemma ciclo_sequenze_eq (nomi : list string) :
  ciclo_sequenze nomi self =
  (match tutti (esiti_sequenze self nomi) with
   | Ret rs => Ret (zip nomi rs)
   | Raise e => Raise e
   end, self).
Proof.
  induction nomi as [|n l IH]; [reflexivity|].
  cbn [ciclo_sequenze]. unfold mbind at 1, M_bind at 1.
  rewrite simula_stato. unfold esiti_sequenze. cbn [fmap list_fmap tutti].
  destruct (fst (simula_sequenza_produttiva n self)) as [r|e]; [|reflexivity].
  unfold mbind, M_bind. rewrite IH. unfold esiti_sequenze.
  destruct (tutti _) as [rs|e]; reflexivity.
Qed.

Lemma rapporto_eq (adesso : string) :
  rapporto_produzione_completo adesso self =
  (match tutti (esiti_sequenze self (fst <$> sequenze self)) with
   | Raise e => Raise e
   | Ret rs =>
       let seqs := zip (fst <$> sequenze self) rs in
       match massimo (Sequenza.giorni_totali <$> non_assenti seqs) with
       | Raise e => Raise e
       | Ret g => Ret (rapporto_completo_di self adesso seqs g)
       end
   end, self).
Proof.
  unfold rapporto_produzione_completo, mbind, M_bind, get, lift.
  rewrite ciclo_sequenze_eq.
  destruct (tutti _) as [rs|e]; [|reflexivity]. cbv zeta.
  destruct (massimo _) as [g|e]; [|reflexivity].
  rewrite ore_medie_eq. reflexivity.
Qed.

Lemma con_prodotti_stesso : con_prodotti self (prodotti self) = self.
Proof. destruct self. reflexivity. Qed.

Lemma configura_tempo_alter (p : string) (t : Q) :
  configura_tempo_produzione p t self =
  (Ret tt, con_prodotti self
             (alter (fun i => con_tempo_per_kg i t) p (prodotti self))).
Proof.
  unfold configura_tempo_produzione, mbind, M_bind, get, put.
  rewrite alter_alt. destruct (prodotti self !! p); [reflexivity|].
  rewrite con_prodotti_stesso. reflexivity.
Qed.

Lemma configura_capacita_alter (p : string) (c : Q) :
  configura_capacita_giornaliera p c self =
  (Ret tt, con_prodotti self
             (alter (fun i => con_capacita_giornaliera i c) p (prodotti self))).
Proof.
  unfold configura_capacita_giornaliera, mbind, M_bind, get, put.
  rewrite alter_alt. destruct (prodotti self !! p); [reflexivity|].
  rewrite con_prodotti_stesso. reflexivity.
Qed.

End MethodsMore.

(** Two instances with the same catalog, sequences and quantities. *)
Lemma stessi_esiti (s1 s2 : Simulatore) :
  prodotti s1 = prodotti s2 ->
  sequenze s1 = sequenze s2 ->
  quantita_produzione s1 = quantita_produzione s2 ->
  (forall p q, fst (calcola_tempo_produzione p q s1)
               = fst (calcola_tempo_produzione p q s2)) /\
  (forall n, fst (simula_sequenza_produttiva n s1)
             = fst (simula_sequenza_produttiva n s2)) /\
  (forall a, fst (rapporto_produzione_completo a s1)
             = fst (rapporto_produzione_completo a s2)).
Proof.
  intros Hp Hs Hq.
  assert (forall p q, fst (calcola_tempo_produzione p q s1)
                      = fst (calcola_tempo_produzione p q s2)) as Hc.
  { intros p q. rewrite !calcola_eq. unfold esito_stima. simpl. rewrite Hp.
    reflexivity. }
  assert (forall l, stime_di s1 l = stime_di s2 l) as Hst.
  { intros l. unfold stime_di. rewrite Hq.
    apply list_omap_ext, Forall2_same_length_lookup.
    split; [reflexivity|]. intros i p p' H H'. assert (p' = p) as -> by congruence.
    destruct (quantita_produzione s2 !! p); simpl; [rewrite Hc|]; reflexivity. }
  assert (forall n, fst (simula_sequenza_produttiva n s1)
                    = fst (simula_sequenza_produttiva n s2)) as Hsim.
  { intros n. rewrite !simula_eq. simpl. rewrite Hs.
    destruct (assoc n (sequenze s2)); [rewrite Hst|]; reflexivity. }
  split; [exact Hc|]. split; [exact Hsim|].
  intros a. rewrite !rapporto_eq. simpl. rewrite Hs.
  assert (forall l, esiti_sequenze s1 l = esiti_sequenze s2 l) as ->.
  { intros l. unfold esiti_sequenze. apply list_fmap_ext. intros ? n _. apply Hsim. }
  destruct (tutti _) as [rs|e]; [|reflexivity].
  destruct (massimo _) as [g|e]; [|reflexivity].
  unfold rapporto_completo_di. rewrite Hq. reflexivity.
Qed.

(** ** The setters and the read-only methods *)

Section SettersMore.

Variable self : Simulatore.

(** X6. On a key that is not in the catalog both setters return
    without an exception and leave the instance exactly as it was: no
    entry is created. *)
Theorem X6_configura_chiave_ignota (p : string) (t c : Q) :
  prodotti self !! p = None ->
  configura_tempo_produzione p t self = (Ret tt, self) /\
  configura_capacita_giornaliera p c self = (Ret tt, self).
Proof.
  intros H.
  unfold configura_tempo_produzione, configura_capacita_giornaliera,
    mbind, M_bind, get.
  rewrite H. split; reflexivity.
Qed.

(** X7. Setting the same field of the same product twice is the same
    as setting it once to the last value, and setting a rate and a
    capacity, of the same product or of two products, gives the same
    instance in either order. *)
Theorem X7_configura_composizione (p p' : string) (t1 t2 c1 c2 : Q) :
  (configura_tempo_produzione p t1;; configura_tempo_produzione p t2) self
  = configura_tempo_produzione p t2 self /\
  (configura_capacita_giornaliera p c1;; configura_capacita_giornaliera p c2) self
  = configura_capacita_giornaliera p c2 self /\
  (configura_tempo_produzione p t1;; configura_capacita_giornaliera p' c1) self
  = (configura_capacita_giornaliera p' c1;; configura_tempo_produzione p t1) self.
Proof.
  unfold mbind, M_bind.
  rewrite !configura_tempo_alter, !configura_capacita_alter. cbv beta iota.
  rewrite ?configura_tempo_alter, ?configura_capacita_alter.
  unfold con_prodotti. cbn [prodotti sequenze quantita_produzione capacita_complessiva].
  split; [|split]; do 2 f_equal.
  - rewrite alter_alter_eq. apply alter_ext. reflexivity.
  - rewrite alter_alter_eq. apply alter_ext. reflexivity.
  - destruct (decide (p = p')) as [->|Hp].
    + rewrite !alter_alter_eq. apply alter_ext. reflexivity.
    + apply alter_alter_ne. congruence.
Qed.

(** X8. [configura_capacita_complessiva] stores the overall capacity
    and changes nothing else; the estimator, the sequence report and
    the facility report never read it: their outcomes are the same
    before and after. *)
Theorem X8_capacita_complessiva_non_letta (c : Q) :
  exists self',
    configura_capacita_complessiva c self = (Ret tt, self') /\
    capacita_complessiva self' = Some c /\
    prodotti self' = prodotti self /\
    sequenze self' = sequenze self /\
    quantita_produzione self' = quantita_produzione self /\
    (forall p q, fst (calcola_tempo_produzione p q self')
                 = fst (calcola_tempo_produzione p q self)) /\
    (forall n, fst (simula_sequenza_produttiva n self')
               = fst (simula_sequenza_produttiva n self)) /\
    (forall a, fst (rapporto_produzione_completo a self')
               = fst (rapporto_produzione_completo a self)).
Proof.
  eexists. split; [reflexivity|].
  cbn [prodotti sequenze quantita_produzione capacita_complessiva].
  repeat (split; [reflexivity|]).
  apply stessi_esiti; reflexivity.
Qed.

(** X9. The estimator, the sequence report and the facility report
    leave every attribute of the instance as it was, whether they
    return or raise. *)
Theorem X9_metodi_di_sola_lettura (p n a : string) (q : Q) :
  snd (calcola_tempo_produzione p q self) = self /\
  snd (simula_sequenza_produttiva n self) = self /\
  snd (rapporto_produzione_completo a self) = self.
Proof.
  rewrite calcola_eq, simula_eq, rapporto_eq. repeat split.
Qed.

End SettersMore.

Lemma X6_configura_chiave_ignota_witness :
  configura_tempo_produzione "pollame" 0.3 init = (Ret tt, init) /\
  configura_capacita_giornaliera "pollame" 100 init = (Ret tt, init).
Proof. apply X6_configura_chiave_ignota. reflexivity. Defined.

(** ** The sequence report: outcomes and order *)

Section AggregatorMore.

Lemma tutti_app_Raise {A : Type} (vs : list A) (e : exn) (l : list (outcome A)) :
  tutti ((Ret <$> vs) ++ Raise e :: l) = Raise e.
Proof.
  induction vs as [|v vs IH]; [reflexivity|].
  change (tutti (Ret v :: ((Ret <$> vs) ++ Raise e :: l)) = Raise e).
  cbn [tutti]. rewrite IH. reflexivity.
Qed.

Variable self : Simulatore.

Lemma riesce_stime (membri : list string) :
  forallb (riesce self) membri = true ->
  exists stime,
    stime_di self membri = Ret <$> stime /\
    length stime = length (risolti self membri).
Proof.
  induction membri as [|p l IH]; intros H.
  - exists []. split; reflexivity.
  - cbn [forallb] in H. apply andb_true_iff in H as [Hp Hl].
    destruct (IH Hl) as (stime & E & Hlen).
    unfold riesce, in_catalogo in Hp. unfold risolti. rewrite filter_cons.
    fold (risolti self l).
    destruct (quantita_produzione self !! p) as [q|] eqn:Hq.
    + destruct (prodotti self !! p) as [info|] eqn:Hi; [|discriminate].
      apply negb_true_iff in Hp.
      exists (stima_di info q :: stime).
      rewrite (stime_di_cons_Some _ _ _ _ Hq), E. unfold esito_stima.
      rewrite Hi, Hp, decide_True by eauto.
      split; [reflexivity | simpl; f_equal; exact Hlen].
    + exists stime. rewrite (stime_di_cons_None _ _ _ Hq).
      rewrite decide_False by (intros [? ?]; discriminate). auto.
Qed.

Lemma non_riesce_stime (membri : list string) :
  forallb (riesce self) membri = false ->
  exists e,
    tutti (stime_di self membri) = Raise e /\
    (e = ZeroDivisionError \/
     exists k, k ∈ membri /\ prodotti self !! k = None /\ e = KeyError k).
Proof.
  induction membri as [|p l IH]; intros H; [discriminate|].
  cbn [forallb] in H.
  destruct (quantita_produzione self !! p) as [q|] eqn:Hq.
  - rewrite (stime_di_cons_Some _ _ _ _ Hq). unfold esito_stima.
    unfold riesce, in_catalogo in H. rewrite Hq in H.
    destruct (prodotti self !! p) as [info|] eqn:Hi.
    + destruct (Qeq_bool (capacita_giornaliera info) 0) eqn:Hz.
      * exists ZeroDivisionError. split; [reflexivity | left; reflexivity].
      * simpl in H. destruct (IH H) as (e & E & He). exists e.
        cbn [tutti]. rewrite E. split; [reflexivity|].
        destruct He as [He|(k & Hk & Hn & He)]; [left; exact He|].
        right. exists k. split; [apply list_elem_of_further, Hk | auto].
    + exists (KeyError p). split; [reflexivity|]. right.
      exists p. split; [apply list_elem_of_here | auto].
  - rewrite (stime_di_cons_None _ _ _ Hq).
    unfold riesce in H at 1. rewrite Hq in H. simpl in H.
    destruct (IH H) as (e & E & He). exists e. split; [exact E|].
    destruct He as [He|(k & Hk & Hn & He)]; [left; exact He|].
    right. exists k. split; [apply list_elem_of_further, Hk | auto].
Qed.

(** X10. For a known sequence, the report is returned exactly when
    every member that has a quantity is in the catalog with a non-zero
    capacity, and it then has one estimate per such member; otherwise
    the call raises [ZeroDivisionError] or the [KeyError] of a member
    missing from the catalog, and nothing else. *)
Theorem X10_simula_esiti (nome : string) (membri : list string) :
  assoc nome (sequenze self) = Some membri ->
  (forallb (riesce self) membri = true ->
   exists r,
     simula_sequenza_produttiva nome self = (Ret (Some r), self) /\
     Sequenza.sequenza r = nome /\
     length (Sequenza.dettagli_prodotti r) = length (risolti self membri)) /\
  (forallb (riesce self) membri = false ->
   exists e,
     simula_sequenza_produttiva nome self = (Raise e, self) /\
     (e = ZeroDivisionError \/
      exists k, k ∈ membri /\ prodotti self !! k = None /\ e = KeyError k)).
Proof.
  intros Ha. rewrite simula_eq, Ha. split; intros H.
  - destruct (riesce_stime _ H) as (stime & E & Hlen).
    rewrite (proj2 (tutti_Ret _ _) E). eexists. split; [reflexivity|].
    split; [reflexivity | exact Hlen].
  - destruct (non_riesce_stime _ H) as (e & E & He).
    rewrite E. exists e. split; [reflexivity | exact He].
Qed.

(** X11. The exception that leaves the call is that of the first
    member, in sequence order, whose estimate fails: [KeyError] with
    its key when it is missing from the catalog, [ZeroDivisionError]
    when its capacity is zero, whatever the members after it. *)
Theorem X11_primo_errore (nome : string) (prima dopo : list string)
    (p : string) (q : Q) :
  assoc nome (sequenze self) = Some (prima ++ p :: dopo) ->
  forallb (riesce self) prima = true ->
  quantita_produzione self !! p = Some q ->
  (prodotti self !! p = None ->
   simula_sequenza_produttiva nome self = (Raise (KeyError p), self)) /\
  (forall info,
      prodotti self !! p = Some info ->
      capacita_giornaliera info == 0 ->
      simula_sequenza_produttiva nome self = (Raise ZeroDivisionError, self)).
Proof.
  intros Ha Hprima Hq. rewrite simula_eq, Ha.
  destruct (riesce_stime _ Hprima) as (stime & E & _).
  unfold stime_di. rewrite omap_app. fold (stime_di self prima).
  fold (stime_di self (p :: dopo)).
  rewrite E, (stime_di_cons_Some _ _ _ _ Hq). unfold esito_stima.
  split.
  - intros ->. rewrite tutti_app_Raise. reflexivity.
  - intros info -> Hz. apply Qeq_eq_bool in Hz. rewrite Hz.
    rewrite tutti_app_Raise. reflexivity.
Qed.

Lemma stime_in_ordine (membri : list string) :
  forall stime,
    stime_di self membri = Ret <$> stime ->
    Forall2 (fun p d =>
               exists q, quantita_produzione self !! p = Some q /\
                         calcola_tempo_produzione p q self = (Ret d, self))
      (risolti self membri) stime.
Proof.
  induction membri as [|p l IH]; intros stime E.
  - destruct stime; [constructor | discriminate].
  - unfold risolti. rewrite filter_cons. fold (risolti self l).
    destruct (quantita_produzione self !! p) as [q|] eqn:Hq.
    + rewrite (stime_di_cons_Some _ _ _ _ Hq) in E.
      destruct stime as [|d s1]; [discriminate|]. injection E as Ed E.
      rewrite decide_True by eauto. constructor; [|apply IH, E].
      exists q. split; [exact Hq|]. rewrite calcola_eq, Ed. reflexivity.
    + rewrite (stime_di_cons_None _ _ _ Hq) in E.
      rewrite decide_False by (intros [? ?]; discriminate). apply IH, E.
Qed.

(** X12. The estimates of a report are, one for one and in sequence
    order, what the estimator returns for the members that have a
    quantity, called with that quantity. *)
Theorem X12_dettagli_in_ordine (nome : string) (membri : list string)
    (r : Sequenza.t) (self' : Simulatore) :
  assoc nome (sequenze self) = Some membri ->
  simula_sequenza_produttiva nome self = (Ret (Some r), self') ->
  Forall2 (fun p d =>
             exists q, quantita_produzione self !! p = Some q /\
                       calcola_tempo_produzione p q self = (Ret d, self))
    (risolti self membri) (Sequenza.dettagli_prodotti r).
Proof.
  intros Ha H. apply simula_inv in H as (_ & membri' & stime & Ha' & E & ->).
  assert (membri' = membri) as -> by congruence.
  apply stime_in_ordine, E.
Qed.

End AggregatorMore.

Lemma X10_simula_esiti_witness :
  (exists r,
      simula_sequenza_produttiva "sequenza_trasformazione" stato_trasformazione
      = (Ret (Some r), stato_trasformazione) /\
      Sequenza.sequenza r = "sequenza_trasformazione"%string /\
      length (Sequenza.dettagli_prodotti r)
      = length (risolti stato_trasformazione ["salumi"; "formaggi"]%string)) /\
  (exists e,
      simula_sequenza_produttiva "sequenza_macellazione" stato_senza_bovina
      = (Raise e, stato_senza_bovina) /\
      (e = ZeroDivisionError \/
       exists k, k ∈ ["carne_bovina"; "carne_suina"]%string /\
                 prodotti stato_senza_bovina !! k = None /\ e = KeyError k)).
Proof.
  split.
  - apply (proj1 (X10_simula_esiti stato_trasformazione "sequenza_trasformazione"
                    ["salumi"; "formaggi"]%string eq_refl)).
    reflexivity.
  - apply (proj2 (X10_simula_esiti stato_senza_bovina "sequenza_macellazione"
                    ["carne_bovina"; "carne_suina"]%string eq_refl)).
    reflexivity.
Defined.

Lemma X11_primo_errore_witness :
  simula_sequenza_produttiva "sequenza_macellazione" stato_senza_bovina
  = (Raise (KeyError "carne_bovina"), stato_senza_bovina).
Proof.
  apply (proj1 (X11_primo_errore stato_senza_bovina "sequenza_macellazione"
                  [] ["carne_suina"]%string "carne_bovina" 100
                  eq_refl eq_refl eq_refl)).
  reflexivity.
Defined.

Lemma X12_dettagli_in_ordine_witness :
  Forall2 (fun p d =>
             exists q, quantita_produzione stato_trasformazione !! p = Some q /\
                       calcola_tempo_produzione p q stato_trasformazione
                       = (Ret d, stato_trasformazione))
    (risolti stato_trasformazione ["salumi"; "formaggi"]%string)
    [stima_di {| nome := "Salumi"; tempo_per_kg := 0.25;
                 capacita_giornaliera := 200; unita_misura := "kg" |} 401;
     stima_di {| nome := "Formaggi"; tempo_per_kg := 0.20;
                 capacita_giornaliera := 150; unita_misura := "kg" |} 120].
Proof.
  apply (X12_dettagli_in_ordine stato_trasformazione "sequenza_trasformazione"
           ["salumi"; "formaggi"]%string
           (rapporto_di "sequenza_trasformazione" _) stato_trasformazione eq_refl).
  vm_compute. reflexivity.
Defined.

(** ** A member without quantity: the report *)

Section Skipped.

Variables (self : Simulatore) (k : string) (qk : Q).
Hypothesis no_quantity : quantita_produzione self !! k = None.

Local Abbreviation self' := (fornisci_quantita self k qk).

(** Members without a quantity can be removed from a sequence. *)
Lemma stime_di_filter (P : string -> Prop) `{forall p, Decision (P p)}
    (membri : list string) :
  (forall p, p ∈ membri -> is_Some (quantita_produzione self !! p) -> P p) ->
  stime_di self (filter P membri) = stime_di self membri.
Proof.
  induction membri as [|p l IH]; intros HP; [reflexivity|].
  rewrite filter_cons.
  assert (stime_di self (filter P l) = stime_di self l) as IH'
    by (apply IH; intros p' Hp'; apply HP; right; exact Hp').
  destruct (quantita_produzione self !! p) as [q|] eqn:Hq.
  - rewrite decide_True by (apply HP; [left | rewrite Hq; eauto]).
    rewrite !(stime_di_cons_Some _ _ _ _ Hq), IH'. reflexivity.
  - rewrite (stime_di_cons_None _ _ _ Hq).
    destruct (decide (P p)); [rewrite (stime_di_cons_None _ _ _ Hq)|]; exact IH'.
Qed.

(** The estimates depend on the catalog and on the quantities only. *)
Lemma stime_di_ext (self2 : Simulatore) (membri : list string) :
  prodotti self2 = prodotti self ->
  quantita_produzione self2 = quantita_produzione self ->
  stime_di self2 membri = stime_di self membri.
Proof.
  intros Hp Hq. induction membri as [|p l IH]; [reflexivity|].
  destruct (quantita_produzione self !! p) as [q|] eqn:E.
  - assert (quantita_produzione self2 !! p = Some q) as E2 by (rewrite Hq; exact E).
    rewrite (stime_di_cons_Some _ _ _ _ E), (stime_di_cons_Some _ _ _ _ E2), IH.
    unfold esito_stima. rewrite Hp. reflexivity.
  - assert (quantita_produzione self2 !! p = None) as E2 by (rewrite Hq; exact E).
    rewrite (stime_di_cons_None _ _ _ E), (stime_di_cons_None _ _ _ E2). exact IH.
Qed.

(** C6. Let [k], a member of the sequence, have no quantity, and let
    the other members that have one be estimable.  The sequence is
    reported.  The report has one estimate for each member that has a
    quantity, in order, which is what the estimator returns for it;
    [k] is not among them.  It is the very report of the sequence
    without [k], and of the sequence of the members that have a
    quantity: the total hours and the days are those of its own
    estimates.  Whenever the sequence is reported once the quantity of
    [k] is supplied, the list of estimates of that report, without
    the entries of [k], is the list of this one: the other entries
    are equal, and this list is shorter by the number of occurrences
    of [k] in the sequence, by one when [k] occurs once. *)
Theorem C6_membro_saltato (nome : string) (membri : list string) :
  assoc nome (sequenze self) = Some membri ->
  k ∈ membri ->
  forallb (stimabile self) membri = true ->
  exists r,
    simula_sequenza_produttiva nome self = (Ret (Some r), self) /\
    (k ∉ risolti self membri) /\
    Forall2 (fun p d =>
               exists q, quantita_produzione self !! p = Some q /\
                         calcola_tempo_produzione p q self = (Ret d, self))
      (risolti self membri) (Sequenza.dettagli_prodotti r) /\
    Sequenza.tempo_totale_ore r
    = round2 (somma (Stima.tempo_lavorazione_ore <$> Sequenza.dettagli_prodotti r)) /\
    Sequenza.giorni_totali r
    = massimo_giorni (Stima.giorni_effettivi <$> Sequenza.dettagli_prodotti r) /\
    (forall self2 membri2,
        prodotti self2 = prodotti self ->
        quantita_produzione self2 = quantita_produzione self ->
        assoc nome (sequenze self2) = Some membri2 ->
        membri2 = filter (fun p => p <> k) membri \/ membri2 = risolti self membri ->
        simula_sequenza_produttiva nome self2 = (Ret (Some r), self2)) /\
    (forall r' s',
        simula_sequenza_produttiva nome self' = (Ret (Some r'), s') ->
        Sequenza.dettagli_prodotti r
        = snd <$> filter (fun x => x.1 <> k)
                    (zip (risolti self' membri) (Sequenza.dettagli_prodotti r')) /\
        length (Sequenza.dettagli_prodotti r') = length (risolti self' membri) /\
        length (Sequenza.dettagli_prodotti r')
        = (length (Sequenza.dettagli_prodotti r)
           + length (filter (fun p => p = k) membri))%nat /\
        (length (Sequenza.dettagli_prodotti r)
         < length (Sequenza.dettagli_prodotti r'))%nat /\
        (length (filter (fun p => p = k) membri) = 1%nat ->
         length (Sequenza.dettagli_prodotti r')
         = S (length (Sequenza.dettagli_prodotti r)))).
Proof.
  intros Ha Hk Hs.
  destruct (simula_ok self nome membri Ha Hs) as (stime & E & S & _ & _).
  exists (rapporto_di nome stime). split; [exact E|].
  cbn [rapporto_di Sequenza.dettagli_prodotti Sequenza.tempo_totale_ore
         Sequenza.giorni_totali].
  split; [|split; [|split; [|split; [|split]]]].
  - unfold risolti. rewrite list_elem_of_filter. intros [[q Hq] _]. congruence.
  - apply stime_in_ordine, S.
  - rewrite <- ore_di_somma. reflexivity.
  - apply giorni_max_massimo.
  - intros self2 membri2 Hp Hq Ha2 Hm.
    rewrite simula_eq, Ha2, (stime_di_ext self2 membri2 Hp Hq).
    assert (stime_di self membri2 = stime_di self membri) as ->.
    { destruct Hm as [-> | ->].
      - apply stime_di_filter. intros p _ [q Hq'] ->. congruence.
      - apply stime_di_filter. intros p _ Hq'. exact Hq'. }
    rewrite (proj2 (tutti_Ret _ _) S). reflexivity.
  - intros r' s' E'.
    apply simula_inv in E' as (-> & membri' & stime' & Ha' & S' & ->).
    change (sequenze self') with (sequenze self) in Ha'.
    rewrite Ha in Ha'. injection Ha' as <-.
    destruct (stime_saltato self k qk no_quantity membri stime' S') as (S2 & L1 & L2).
    cbv zeta in S2, L2. rewrite S in S2.
    assert (Ret stime
            = Ret (snd <$> filter (fun x => x.1 <> k) (zip (risolti self' membri) stime')))
      as S3.
    { rewrite <- (proj2 (tutti_Ret (Ret <$> stime) stime) eq_refl), S2.
      apply tutti_Ret. reflexivity. }
    injection S3 as S3. clear S2. rename S3 into S2.
    cbn [rapporto_di Sequenza.dettagli_prodotti].
    assert (0 < length (filter (fun p => p = k) membri))%nat as Hpos.
    { assert (k ∈ filter (fun p => p = k) membri) as Hin
        by (apply list_elem_of_filter; auto).
      destruct (filter (fun p => p = k) membri); [inversion Hin | simpl; lia]. }
    rewrite <- S2 in L2.
    repeat split; try assumption; lia.
Qed.

End Skipped.

Lemma C6_membro_saltato_witness :
  let self := con_quantita init (<["formaggi" := 120]> ∅) in
  let self' := fornisci_quantita self "salumi" 401 in
  let membri := ["salumi"; "formaggi"]%string in
  exists r r',
    simula_sequenza_produttiva "sequenza_trasformazione" self = (Ret (Some r), self) /\
    simula_sequenza_produttiva "sequenza_trasformazione" self' = (Ret (Some r'), self') /\
    ("salumi"%string ∉ risolti self membri) /\
    length (Sequenza.dettagli_prodotti r) = 1%nat /\
    length (Sequenza.dettagli_prodotti r') = 2%nat /\
    Sequenza.dettagli_prodotti r
    = snd <$> filter (fun x => x.1 <> "salumi"%string)
                (zip (risolti self' membri) (Sequenza.dettagli_prodotti r')) /\
    Sequenza.giorni_totali r
    = massimo_giorni (Stima.giorni_effettivi <$> Sequenza.dettagli_prodotti r) /\
    simula_sequenza_produttiva "sequenza_trasformazione"
      (con_sequenze self [("sequenza_trasformazione"%string, ["formaggi"%string])])
    = (Ret (Some r),
       con_sequenze self [("sequenza_trasformazione"%string, ["formaggi"%string])]).
Proof.
  intros self self' membri.
  destruct (C6_membro_saltato self "salumi" 401 eq_refl "sequenza_trasformazione"
              membri eq_refl (list_elem_of_here _ _) eq_refl)
    as (r & E & Hk & _ & _ & Hg & Hrel & Hcmp).
  destruct (simula_sequenza_produttiva "sequenza_trasformazione" self')
    as [[[r'|]|e] s1] eqn:E'; try (vm_compute in E'; discriminate).
  assert (s1 = self') as -> by (vm_compute in E'; injection E' as _ <-; reflexivity).
  destruct (Hcmp r' self' E') as (Hd & L1 & L2 & _ & L3).
  exists r, r'. split; [exact E|]. split; [reflexivity|]. split; [exact Hk|].
  assert (length (Sequenza.dettagli_prodotti r') = 2%nat) as Hl by exact L1.
  split; [specialize (L3 eq_refl); lia|].
  split; [exact Hl|]. split; [exact Hd|]. split; [exact Hg|].
  apply (Hrel _ ["formaggi"%string]); [reflexivity | reflexivity | reflexivity | left; reflexivity].
Defined.

(** ** Drawing the quantities *)

Section Genera.

Variable estrai : string -> Z.

Lemma quantita_estratte_lookup (codici : list string) :
  forall (d : gmap string Q) (k : string),
    quantita_estratte estrai codici d !! k
    = if decide (k ∈ codici) then Some (inject_Z (estrai k)) else d !! k.
Proof.
  induction codici as [|a l IH]; intros d k.
  - rewrite decide_False by apply not_elem_of_nil. reflexivity.
  - change (quantita_estratte estrai (a :: l) d)
      with (quantita_estratte estrai l (<[a := inject_Z (estrai a)]> d)).
    rewrite IH. destruct (decide (k ∈ l)) as [Hl|Hl].
    + rewrite decide_True by (apply list_elem_of_further, Hl). reflexivity.
    + destruct (decide (k = a)) as [->|Hk].
      * rewrite decide_True by apply list_elem_of_here. apply lookup_insert_eq.
      * rewrite decide_False
          by (intros H; apply elem_of_cons in H as [?|?]; contradiction).
        apply lookup_insert_ne. congruence.
Qed.

Lemma ciclo_genera_ok (min_qty max_qty : Z) (codici : list string) :
  (min_qty <= max_qty)%Z ->
  forall self,
    ciclo_genera estrai min_qty max_qty codici self
    = (Ret tt,
       con_quantita self (quantita_estratte estrai codici (quantita_produzione self))).
Proof.
  intros Hr. induction codici as [|a l IH]; intros self.
  - destruct self. reflexivity.
  - cbn [ciclo_genera]. unfold mbind, M_bind, lift, randint, get, put.
    destruct (Z.ltb_spec max_qty min_qty) as [H|_]; [lia|].
    rewrite IH. reflexivity.
Qed.

Lemma codici_catalogo (d : gmap string Prodotto) (k : string) :
  k ∈ fst <$> map_to_list d <-> is_Some (d !! k).
Proof.
  rewrite list_elem_of_fmap. split.
  - intros ([k' x] & -> & H). apply elem_of_map_to_list in H. eauto.
  - intros [x H]. exists (k, x). split; [reflexivity|].
    apply elem_of_map_to_list, H.
Qed.

Variable self : Simulatore.

Lemma genera_quantita_catalogo (min_qty max_qty : Z) :
  (min_qty <= max_qty)%Z ->
  exists self',
    genera_quantita_casuali estrai min_qty max_qty self
    = (Ret (quantita_produzione self'), self') /\
    prodotti self' = prodotti self /\
    sequenze self' = sequenze self /\
    (forall k, is_Some (prodotti self !! k) ->
               quantita_produzione self' !! k = Some (inject_Z (estrai k))).
Proof.
  intros Hr. unfold genera_quantita_casuali, mbind, M_bind, get.
  rewrite (ciclo_genera_ok _ _ _ Hr). eexists. split; [reflexivity|].
  cbn [con_quantita prodotti sequenze quantita_produzione].
  repeat (split; [reflexivity|]). intros k Hk.
  rewrite quantita_estratte_lookup, decide_True; [reflexivity|].
  apply codici_catalogo, Hk.
Qed.

Lemma genera_eq (min_qty max_qty : Z) :
  (min_qty <= max_qty)%Z ->
  let q' := quantita_estratte estrai (fst <$> map_to_list (prodotti self))
              (quantita_produzione self) in
  genera_quantita_casuali estrai min_qty max_qty self = (Ret q', con_quantita self q').
Proof.
  intros Hr. unfold genera_quantita_casuali, mbind, M_bind, get.
  rewrite (ciclo_genera_ok _ _ _ Hr). reflexivity.
Qed.

(** X13. With a non-empty range, [genera_quantita_casuali] returns the
    quantity table it leaves in the instance: every product of the
    catalog has the value drawn for it, the quantities of other keys
    are kept, and the catalog, the sequences and the overall capacity
    are unchanged. *)
Theorem X13_genera_quantita (min_qty max_qty : Z) :
  (min_qty <= max_qty)%Z ->
  exists self',
    genera_quantita_casuali estrai min_qty max_qty self
    = (Ret (quantita_produzione self'), self') /\
    prodotti self' = prodotti self /\
    sequenze self' = sequenze self /\
    capacita_complessiva self' = capacita_complessiva self /\
    (forall k, is_Some (prodotti self !! k) ->
               quantita_produzione self' !! k = Some (inject_Z (estrai k))) /\
    (forall k, prodotti self !! k = None ->
               quantita_produzione self' !! k = quantita_produzione self !! k).
Proof.
  intros Hr. unfold genera_quantita_casuali, mbind, M_bind, get.
  rewrite (ciclo_genera_ok _ _ _ Hr). eexists. split; [reflexivity|].
  cbn [con_quantita prodotti sequenze quantita_produzione capacita_complessiva].
  repeat (split; [reflexivity|]). split; intros k Hk.
  - rewrite quantita_estratte_lookup, decide_True; [reflexivity|].
    apply codici_catalogo, Hk.
  - rewrite quantita_estratte_lookup, decide_False; [reflexivity|].
    rewrite codici_catalogo, Hk. intros [? ?]; discriminate.
Qed.

(** X14. With an empty range ([max_qty < min_qty]) and a catalog that
    is not empty, [genera_quantita_casuali] raises [ValueError] at the
    first draw and writes no quantity; with an empty catalog it draws
    nothing and returns the quantity table as it is. *)
Theorem X14_genera_intervallo_vuoto (min_qty max_qty : Z) :
  ((max_qty < min_qty)%Z ->
   prodotti self <> ∅ ->
   genera_quantita_casuali estrai min_qty max_qty self = (Raise ValueError, self)) /\
  (prodotti self = ∅ ->
   genera_quantita_casuali estrai min_qty max_qty self
   = (Ret (quantita_produzione self), self)).
Proof.
  unfold genera_quantita_casuali, mbind, M_bind, get. split.
  - intros Hr Hne.
    destruct (map_to_list (prodotti self)) as [|[k x] l] eqn:E.
    + apply map_to_list_empty_iff in E. contradiction.
    + cbn [fmap list_fmap fst ciclo_genera].
      unfold mbind, M_bind, lift, randint.
      destruct (Z.ltb_spec max_qty min_qty) as [_|H]; [reflexivity | lia].
  - intros ->. rewrite map_to_list_empty. reflexivity.
Qed.

Lemma risolti_tutti (s : Simulatore) (membri : list string) :
  (forall p, p ∈ membri -> is_Some (quantita_produzione s !! p)) ->
  risolti s membri = membri.
Proof.
  induction membri as [|p l IH]; intros H; [reflexivity|].
  unfold risolti. rewrite filter_cons. fold (risolti s l).
  rewrite decide_True by (apply H, list_elem_of_here).
  f_equal. apply IH. intros p' Hp'. apply H, list_elem_of_further, Hp'.
Qed.

Lemma calcola_quantita (s s' : Simulatore) (p : string) (q : Q) (d : Stima.t) :
  calcola_tempo_produzione p q s = (Ret d, s') -> Stima.quantita d = q.
Proof.
  rewrite calcola_eq. unfold esito_stima. intros H. injection H as H _.
  destruct (prodotti s !! p); [|discriminate].
  destruct (Qeq_bool _ 0); [discriminate|]. injection H as <-. reflexivity.
Qed.

(** X15. After [genera_quantita_casuali] on a non-empty range, a
    sequence whose members are all in the catalog with a non-zero
    capacity is reported with no member skipped: one estimate per
    member, in order, for the quantity drawn for that member. *)
Theorem X15_genera_poi_simula (min_qty max_qty : Z) (nome : string)
    (membri : list string) :
  (min_qty <= max_qty)%Z ->
  assoc nome (sequenze self) = Some membri ->
  forallb (in_catalogo self) membri = true ->
  exists self' r,
    snd (genera_quantita_casuali estrai min_qty max_qty self) = self' /\
    simula_sequenza_produttiva nome self' = (Ret (Some r), self') /\
    Forall2 (fun p d => Stima.quantita d = inject_Z (estrai p))
      membri (Sequenza.dettagli_prodotti r).
Proof.
  intros Hr Ha Hc.
  destruct (genera_quantita_catalogo min_qty max_qty Hr)
    as (self' & E & Hp & Hs & Hq).
  exists self'. rewrite E. cbn [snd].
  assert (forall p, p ∈ membri ->
            quantita_produzione self' !! p = Some (inject_Z (estrai p)) /\
            riesce self' p = true) as Hm.
  { intros p Hin. rewrite forallb_forall in Hc.
    specialize (Hc p (proj1 (list_elem_of_In _ _) Hin)).
    assert (is_Some (prodotti self !! p)) as Hi.
    { unfold in_catalogo in Hc. destruct (prodotti self !! p); [eauto|discriminate]. }
    split; [apply Hq, Hi|]. unfold riesce. rewrite (Hq _ Hi).
    unfold in_catalogo in *. rewrite Hp. exact Hc. }
  assert (forallb (riesce self') membri = true) as Hok.
  { apply forallb_forall. intros p Hin. apply Hm, list_elem_of_In, Hin. }
  assert (risolti self' membri = membri) as Hris.
  { apply risolti_tutti. intros p Hin. destruct (Hm p Hin) as [-> _]. eauto. }
  destruct (riesce_stime self' membri Hok) as (stime & Est & _).
  exists (rapporto_di nome stime). split; [reflexivity|].
  split; [rewrite simula_eq, Hs, Ha, (proj2 (tutti_Ret _ _) Est); reflexivity|].
  cbn [rapporto_di Sequenza.dettagli_prodotti].
  pose proof (stime_in_ordine self' membri stime Est) as H. rewrite Hris in H.
  apply Forall2_same_length_lookup. split; [eapply Forall2_length, H|].
  intros i p d Hp' Hd.
  destruct (Forall2_lookup_lr _ _ _ _ _ _ H Hp' Hd) as (q & Hqq & Hcal).
  rewrite (calcola_quantita _ _ _ _ _ Hcal).
  destruct (Hm p (list_elem_of_lookup_2 _ _ _ Hp')) as [Hq' _]. congruence.
Qed.

End Genera.

Lemma X13_genera_quantita_witness :
  exists self',
    genera_quantita_casuali (fun _ => 120%Z) 80 250 init
    = (Ret (quantita_produzione self'), self') /\
    prodotti self' = prodotti init /\
    sequenze self' = sequenze init /\
    capacita_complessiva self' = capacita_complessiva init /\
    (forall k, is_Some (prodotti init !! k) ->
               quantita_produzione self' !! k = Some (inject_Z 120)) /\
    (forall k, prodotti init !! k = None ->
               quantita_produzione self' !! k = quantita_produzione init !! k).
Proof. apply (X13_genera_quantita (fun _ => 120%Z) init 80 250). lia. Defined.

Lemma X14_genera_intervallo_vuoto_witness :
  genera_quantita_casuali (fun _ => 120%Z) 300 50 init = (Raise ValueError, init) /\
  genera_quantita_casuali (fun _ => 120%Z) 80 250 (con_prodotti init ∅)
  = (Ret ∅, con_prodotti init ∅).
Proof.
  split.
  - apply (proj1 (X14_genera_intervallo_vuoto (fun _ => 120%Z) init 300 50)); [lia|].
    intros H.
    assert (prodotti init !! "salumi" = None) as E by (rewrite H; apply lookup_empty).
    discriminate E.
  - apply (proj2 (X14_genera_intervallo_vuoto (fun _ => 120%Z)
                    (con_prodotti init ∅) 80 250)).
    reflexivity.
Defined.

Lemma X15_genera_poi_simula_witness :
  exists self' r,
    snd (genera_quantita_casuali (fun _ => 120%Z) 80 250 init) = self' /\
    simula_sequenza_produttiva "sequenza_trasformazione" self' = (Ret (Some r), self') /\
    Forall2 (fun p d => Stima.quantita d = inject_Z 120)
      ["salumi"; "formaggi"]%string (Sequenza.dettagli_prodotti r).
Proof.
  apply (X15_genera_poi_simula (fun _ => 120%Z) init 80 250
           "sequenza_trasformazione" ["salumi"; "formaggi"]%string);
    [lia | reflexivity | reflexivity].
Defined.

(** ** The facility report: outcomes and totals *)

Section FacilityMore.

Lemma assoc_chiave {V : Type} (d : list (string * V)) (n : string) :
  n ∈ fst <$> d -> is_Some (assoc n d).
Proof.
  induction d as [|[k v] d IH]; intros H; [inversion H|].
  cbn [assoc]. destruct (decide (n = k)); [eauto|].
  apply IH. cbn [fmap list_fmap fst] in H.
  apply elem_of_cons in H as [?|?]; [contradiction | assumption].
Qed.

Lemma assoc_elem {V : Type} (d : list (string * V)) (n : string) (v : V) :
  assoc n d = Some v -> (n, v) ∈ d.
Proof.
  induction d as [|[k w] d IH]; intros H; [discriminate|].
  cbn [assoc] in H. destruct (decide (n = k)) as [->|].
  - injection H as ->. apply list_elem_of_here.
  - apply list_elem_of_further, IH, H.
Qed.

Lemma massimo_spec (l : list Z) (g : Z) :
  massimo l = Ret g -> Forall (fun x => (x <= g)%Z) l /\ g ∈ l.
Proof.
  destruct l as [|x l]; [discriminate|]. intros H. injection H as <-. split.
  - constructor; [apply foldl_max_ge | apply foldl_max_ub].
  - destruct (foldl_max_in l x) as [->|H].
    + apply list_elem_of_here.
    + apply list_elem_of_further, H.
Qed.

Lemma non_assenti_zip (nomi : list string) (rs : list Sequenza.t) :
  length rs = length nomi ->
  non_assenti (zip nomi (Some <$> rs)) = rs.
Proof.
  revert rs. induction nomi as [|n l IH]; intros [|r rs] H;
    try discriminate; [reflexivity|].
  unfold non_assenti. cbn. f_equal. apply IH. simpl in H. lia.
Qed.

Variable self : Simulatore.

(** The reports of the sequences whose resolved members all succeed. *)
Lemma esiti_sequenze_ok (nomi : list string) :
  Forall (fun n => is_Some (assoc n (sequenze self))) nomi ->
  forallb (sequenza_riesce self) nomi = true ->
  exists rs,
    esiti_sequenze self nomi = Ret <$> (Some <$> rs) /\
    Forall2 (fun n r => simula_sequenza_produttiva n self = (Ret (Some r), self))
      nomi rs.
Proof.
  induction nomi as [|n l IH]; intros Hk H.
  - exists []. split; [reflexivity | constructor].
  - apply Forall_cons in Hk as [[membri Ha] Hk].
    cbn [forallb] in H. apply andb_true_iff in H as [Hn Hl].
    destruct (IH Hk Hl) as (rs & E & Hall).
    unfold sequenza_riesce in Hn. rewrite Ha in Hn.
    destruct (riesce_stime self membri Hn) as (stime & Est & _).
    assert (simula_sequenza_produttiva n self
            = (Ret (Some (rapporto_di n stime)), self)) as Hs
      by (rewrite simula_eq, Ha, (proj2 (tutti_Ret _ _) Est); reflexivity).
    exists (rapporto_di n stime :: rs). split.
    + unfold esiti_sequenze in *. cbn [fmap list_fmap]. rewrite Hs.
      cbn [fst]. f_equal. exact E.
    + constructor; assumption.
Qed.

Lemma esiti_sequenze_errore (nomi : list string) :
  Forall (fun n => is_Some (assoc n (sequenze self))) nomi ->
  forallb (sequenza_riesce self) nomi = false ->
  exists e, tutti (esiti_sequenze self nomi) = Raise e.
Proof.
  induction nomi as [|n l IH]; intros Hk H; [discriminate|].
  apply Forall_cons in Hk as [[membri Ha] Hk].
  unfold esiti_sequenze. cbn [fmap list_fmap tutti].
  rewrite simula_eq, Ha. cbn [fst].
  destruct (forallb (riesce self) membri) eqn:Hm.
  - destruct (riesce_stime self membri Hm) as (stime & Est & _).
    rewrite (proj2 (tutti_Ret _ _) Est).
    cbn [forallb] in H. unfold sequenza_riesce in H at 1.
    rewrite Ha, Hm in H. simpl in H.
    destruct (IH Hk H) as [e E]. unfold esiti_sequenze in E. rewrite E. eauto.
  - destruct (non_riesce_stime self membri Hm) as (e & E & _).
    rewrite E. eauto.
Qed.

Lemma chiavi_presenti :
  Forall (fun n => is_Some (assoc n (sequenze self))) (fst <$> sequenze self).
Proof. apply Forall_forall. intros n Hn. apply assoc_chiave, Hn. Qed.

(** The facility report is returned when there is a sequence and every
    sequence is reported. *)
Lemma rapporto_ritorna (adesso : string) :
  sequenze self <> [] ->
  forallb (sequenza_riesce self) (fst <$> sequenze self) = true ->
  exists R, rapporto_produzione_completo adesso self = (Ret R, self).
Proof.
  intros Hne H. rewrite rapporto_eq.
  destruct (esiti_sequenze_ok _ chiavi_presenti H) as (rs & E & Hall).
  rewrite (proj2 (tutti_Ret _ _) E). cbv zeta.
  rewrite non_assenti_zip by (symmetry; eapply Forall2_length, Hall).
  destruct rs as [|r rs]; [|eexists; reflexivity].
  apply Forall2_length in Hall. rewrite length_fmap in Hall.
  destruct (sequenze self); [contradiction | discriminate].
Qed.

Lemma sequenza_riesce_catalogo (n : string) :
  (forall membri, assoc n (sequenze self) = Some membri ->
                  forallb (in_catalogo self) membri = true) ->
  sequenza_riesce self n = true.
Proof.
  intros H. unfold sequenza_riesce.
  destruct (assoc n (sequenze self)) as [membri|]; [|reflexivity].
  specialize (H _ eq_refl). rewrite forallb_forall in *. intros p Hp.
  unfold riesce. rewrite (H p Hp). destruct (_ !! p); reflexivity.
Qed.

(** X16. With no sequence configured, [rapporto_produzione_completo]
    raises [ValueError] (the maximum of no day count) and leaves the
    instance as it was. *)
Theorem X16_rapporto_senza_sequenze (adesso : string) :
  sequenze self = [] ->
  rapporto_produzione_completo adesso self = (Raise ValueError, self).
Proof. intros H. rewrite rapporto_eq, H. reflexivity. Qed.

(** X17. With at least one sequence, the facility report is returned
    exactly when every sequence is reported.  It then carries the given
    time stamp and the quantity table, and one entry per sequence name,
    in order, none of them [None], each being what
    [simula_sequenza_produttiva] returns; its [giorni_totali] is the
    [giorni_totali] of one of the sequences and no sequence has more.
    Otherwise the call raises. *)
Theorem X17_rapporto_esiti (adesso : string) :
  sequenze self <> [] ->
  (forallb (sequenza_riesce self) (fst <$> sequenze self) = true ->
   exists R rs,
     rapporto_produzione_completo adesso self = (Ret R, self) /\
     Rapporto.data_simulazione R = adesso /\
     Rapporto.quantita_produzione R = quantita_produzione self /\
     Rapporto.sequenze R = zip (fst <$> sequenze self) (Some <$> rs) /\
     Forall2 (fun n r => simula_sequenza_produttiva n self = (Ret (Some r), self))
       (fst <$> sequenze self) rs /\
     Forall (fun r => (Sequenza.giorni_totali r
                       <= Totali.giorni_totali (Rapporto.totali_generali R))%Z) rs /\
     Totali.giorni_totali (Rapporto.totali_generali R)
       ∈ Sequenza.giorni_totali <$> rs) /\
  (forallb (sequenza_riesce self) (fst <$> sequenze self) = false ->
   exists e, rapporto_produzione_completo adesso self = (Raise e, self)).
Proof.
  intros Hne. rewrite rapporto_eq. split; intros H.
  - destruct (esiti_sequenze_ok _ chiavi_presenti H) as (rs & E & Hall).
    rewrite (proj2 (tutti_Ret _ _) E). cbv zeta.
    rewrite non_assenti_zip by (symmetry; eapply Forall2_length, Hall).
    assert (exists g, massimo (Sequenza.giorni_totali <$> rs) = Ret g) as [g Hg].
    { destruct rs as [|r rs]; [|eexists; reflexivity].
      apply Forall2_length in Hall. rewrite length_fmap in Hall.
      destruct (sequenze self); [contradiction | discriminate]. }
    rewrite Hg. destruct (massimo_spec _ _ Hg) as [Hub Hin].
    eexists _, rs. split; [reflexivity|].
    cbn [rapporto_completo_di Rapporto.data_simulazione Rapporto.quantita_produzione
           Rapporto.sequenze Rapporto.totali_generali Totali.giorni_totali].
    repeat (split; [reflexivity|]). split; [exact Hall|].
    split; [|exact Hin].
    rewrite Forall_forall in Hub. apply Forall_forall. intros r Hr.
    apply Hub, list_elem_of_fmap. eauto.
  - destruct (esiti_sequenze_errore _ chiavi_presenti H) as [e E].
    rewrite E. eauto.
Qed.

End FacilityMore.

Lemma X16_rapporto_senza_sequenze_witness :
  rapporto_produzione_completo "04/11/2026 10:00" (con_sequenze init [])
  = (Raise ValueError, con_sequenze init []).
Proof. apply X16_rapporto_senza_sequenze. reflexivity. Defined.

Lemma X17_rapporto_esiti_witness :
  (exists R,
      rapporto_produzione_completo "04/11/2026 10:00" stato_trasformazione
      = (Ret R, stato_trasformazione) /\
      Rapporto.data_simulazione R = "04/11/2026 10:00"%string /\
      Rapporto.quantita_produzione R = quantita_produzione stato_trasformazione) /\
  (exists e,
      rapporto_produzione_completo "04/11/2026 10:00" stato_senza_bovina
      = (Raise e, stato_senza_bovina)).
Proof.
  split.
  - destruct (proj1 (X17_rapporto_esiti stato_trasformazione "04/11/2026 10:00"
                       ltac:(discriminate)) eq_refl)
      as (R & rs & E & Hd & Hq & _).
    exists R. auto.
  - apply (proj2 (X17_rapporto_esiti stato_senza_bovina "04/11/2026 10:00"
                    ltac:(discriminate))).
    reflexivity.
Defined.

(** ** Sums over the facility report *)

Section FacilitySums.





Variable self : Simulatore.


Lemma stime_di_fuori (k : string) (q : Q) (membri : list string) :
  k ∉ membri ->
  stime_di (fornisci_quantita self k q) membri = stime_di self membri.
Proof.
  induction membri as [|p l IH]; intros Hk; [reflexivity|].
  apply not_elem_of_cons in Hk as [Hp Hl].
  assert (quantita_produzione (fornisci_quantita self k q) !! p
          = quantita_produzione self !! p) as Hq
    by (apply lookup_insert_ne; congruence).
  destruct (quantita_produzione self !! p) as [x|] eqn:Hx.
  - rewrite (stime_di_cons_Some _ _ _ _ Hq), (stime_di_cons_Some _ _ _ _ Hx).
    rewrite (IH Hl). reflexivity.
  - rewrite (stime_di_cons_None _ _ _ Hq), (stime_di_cons_None _ _ _ Hx).
    apply IH, Hl.
Qed.

(** X19. A quantity supplied for a product that has none and that no
    sequence lists changes nothing in the sequence entries and in the
    hours, days and average of the facility report; it only adds that
    quantity to [quantita_totale_kg] (and appears in the quantity
    table of the report). *)
Theorem X19_quantita_fuori_sequenza (adesso k : string) (q : Q) (R : Rapporto.t) :
  quantita_produzione self !! k = None ->
  Forall (fun x => k ∉ x.2) (sequenze self) ->
  rapporto_produzione_completo adesso self = (Ret R, self) ->
  exists R',
    rapporto_produzione_completo adesso (fornisci_quantita self k q)
    = (Ret R', fornisci_quantita self k q) /\
    Rapporto.sequenze R' = Rapporto.sequenze R /\
    Rapporto.quantita_produzione R' = <[k := q]> (Rapporto.quantita_produzione R) /\
    let T := Rapporto.totali_generali R in
    let T' := Rapporto.totali_generali R' in
    Totali.tempo_totale_ore T' = Totali.tempo_totale_ore T /\
    Totali.giorni_totali T' = Totali.giorni_totali T /\
    Totali.ore_medie_giorno T' = Totali.ore_medie_giorno T /\
    Totali.quantita_totale_kg T' == Totali.quantita_totale_kg T + q.
Proof.
  intros Hk Hfuori H. rewrite rapporto_eq in H. rewrite rapporto_eq.
  cbn [fornisci_quantita con_quantita sequenze].
  assert (esiti_sequenze (fornisci_quantita self k q) (fst <$> sequenze self)
          = esiti_sequenze self (fst <$> sequenze self)) as ->.
  { unfold esiti_sequenze. apply list_fmap_ext. intros i n Hn.
    rewrite !simula_eq. cbn [fst fornisci_quantita con_quantita sequenze].
    destruct (assoc n (sequenze self)) as [membri|] eqn:Ha; [|reflexivity].
    rewrite stime_di_fuori; [reflexivity|].
    rewrite Forall_forall in Hfuori. apply (Hfuori _ (assoc_elem _ _ _ Ha)). }
  destruct (tutti _) as [rs|e]; [|discriminate]. cbv zeta in *.
  destruct (massimo _) as [g|e]; [|discriminate].
  injection H as <-. eexists. split; [reflexivity|].
  cbn [rapporto_completo_di Rapporto.sequenze Rapporto.quantita_produzione
         Rapporto.totali_generali Totali.tempo_totale_ore Totali.giorni_totali
         Totali.ore_medie_giorno Totali.quantita_totale_kg
         fornisci_quantita con_quantita quantita_produzione].
  repeat (split; [reflexivity|]).
  apply (map_fold_insert Qeq (fun (_ : string) (x tot : Q) => tot + x) 0 k q
           (quantita_produzione self)); [| |exact Hk].
  - intros j z x y Hxy. rewrite Hxy. reflexivity.
  - intros j1 j2 z1 z2 y _ _ _. ring.
Qed.

End FacilitySums.


Lemma X19_quantita_fuori_sequenza_witness :
  exists R R',
    rapporto_produzione_completo "04/11/2026 10:00" stato_trasformazione
    = (Ret R, stato_trasformazione) /\
    rapporto_produzione_completo "04/11/2026 10:00"
      (fornisci_quantita stato_trasformazione "pollame" 30)
    = (Ret R', fornisci_quantita stato_trasformazione "pollame" 30) /\
    Rapporto.sequenze R' = Rapporto.sequenze R /\
    Totali.quantita_totale_kg (Rapporto.totali_generali R')
    == Totali.quantita_totale_kg (Rapporto.totali_generali R) + 30.
Proof.
  assert (exists R,
             rapporto_produzione_completo "04/11/2026 10:00" stato_trasformazione
             = (Ret R, stato_trasformazione)) as [R HR]
    by (eexists; vm_compute; reflexivity).
  assert (Forall (fun x : string * list string => "pollame"%string ∉ x.2)
            (sequenze stato_trasformazione)) as Hf.
  { repeat constructor; intros H;
      repeat (apply elem_of_cons in H as [H|H]; [discriminate H|]);
      inversion H. }
  destruct (X19_quantita_fuori_sequenza stato_trasformazione
              "04/11/2026 10:00" "pollame" 30 R eq_refl Hf HR)
    as (R' & E' & Hs & _ & _ & _ & _ & Hq).
  exists R, R'. auto.
Defined.

(** ** [main] *)

(** X21. [main()] returns without an exception whatever values are
    drawn.  It leaves an instance with the initial sequences, the
    initial catalog except for the rate 0.18 of ["carne_bovina"] and
    the capacity 220 of ["salumi"], and, as quantities, the draws of
    the four products and nothing else; on that instance the facility
    report is returned. *)
Theorem X21_main (estrai : string -> Z) (adesso : string) :
  exists self',
    main estrai adesso = (Ret tt, self') /\
    sequenze self' = sequenze_iniziali /\
    prodotti self'
    = <["carne_bovina" :=
          {| nome := "Carne Bovina"; tempo_per_kg := 0.18;
             capacita_giornaliera := 500; unita_misura := "kg" |}]>
      (<["salumi" :=
          {| nome := "Salumi"; tempo_per_kg := 0.25;
             capacita_giornaliera := 220; unita_misura := "kg" |}]>
       prodotti_iniziali) /\
    (forall k, is_Some (prodotti_iniziali !! k) ->
               quantita_produzione self' !! k = Some (inject_Z (estrai k))) /\
    (forall k, prodotti_iniziali !! k = None ->
               quantita_produzione self' !! k = None) /\
    exists R, rapporto_produzione_completo adesso self' = (Ret R, self').
Proof.
  unfold main, mbind, M_bind.
  rewrite (genera_eq estrai init 80 250) by lia. cbv beta iota zeta.
  rewrite configura_tempo_alter. cbv beta iota.
  rewrite configura_capacita_alter. cbv beta iota.
  cbn [prodotti sequenze quantita_produzione capacita_complessiva
         con_prodotti con_quantita init].
  match goal with
  | |- context [rapporto_produzione_completo adesso ?s] => set (s3 := s)
  end.
  assert (exists R, rapporto_produzione_completo adesso s3 = (Ret R, s3)) as [R HR].
  { apply rapporto_ritorna; [discriminate|].
    apply forallb_forall. intros n _. apply sequenza_riesce_catalogo.
    intros membri Ha. apply forallb_forall. intros p Hp.
    apply list_elem_of_In in Hp.
    change (sequenze s3) with sequenze_iniziali in Ha.
    unfold sequenze_iniziali in Ha. cbn [assoc] in Ha.
    destruct (decide (n = "sequenza_macellazione"%string)) as [_|_];
      [|destruct (decide (n = "sequenza_trasformazione"%string)) as [_|_];
        [|discriminate Ha]];
      injection Ha as <-;
      repeat (apply elem_of_cons in Hp as [->|Hp]; [reflexivity|]);
      inversion Hp. }
  rewrite HR. exists s3. split; [reflexivity|].
  split; [reflexivity|]. split; [vm_compute; reflexivity|].
  change (quantita_produzione s3)
    with (quantita_estratte estrai (fst <$> map_to_list prodotti_iniziali) ∅).
  split; [|split; [|exists R; exact HR]]; intros k Hk;
    rewrite quantita_estratte_lookup.
  - rewrite decide_True by (apply codici_catalogo, Hk). reflexivity.
  - rewrite decide_False; [apply lookup_empty|].
    rewrite codici_catalogo, Hk. intros [? ?]; discriminate.
Qed.
